(** * Ticketscrapper: a shallow embedding of [Main.py]

    The script polls one event page, classifies its text by keyword,
    notifies a Telegram chat and backs off on errors.  Everything the
    script does to the outside world (HTTP, the two status files, the bot,
    the clock, sleeping) is made explicit here: an iteration of the loop
    receives an [env] that says how the outside world answers, and the
    calls it makes are appended to a [trace].

    Left out: the calls of [logger], which change nothing the script reads,
    and the construction [Bot(token=...)], which only stores its constant
    argument.  Times are integers, in microseconds, the resolution of
    [datetime]. *)

From Stdlib Require Import ZArith NArith List String Ascii Bool Lia.
Import ListNotations.

Local Open Scope Z_scope.

(** ** Python strings

    A [str] is a sequence of Unicode code points. *)

Definition pystr := list N.

(** A source literal (all literals of [Main.py] are ASCII). *)
Definition lit (s : string) : pystr :=
  map N_of_ascii (list_ascii_of_string s).

Fixpoint str_eqb (a b : pystr) : bool :=
  match a, b with
  | [], [] => true
  | x :: a', y :: b' => N.eqb x y && str_eqb a' b'
  | _, _ => false
  end.

(** [needle in hay] for two strings. *)
Fixpoint startswith (hay needle : pystr) : bool :=
  match needle, hay with
  | [], _ => true
  | _ :: _, [] => false
  | x :: needle', y :: hay' => N.eqb x y && startswith hay' needle'
  end.

Fixpoint str_in (needle hay : pystr) : bool :=
  startswith hay needle ||
  match hay with
  | [] => false
  | _ :: hay' => str_in needle hay'
  end.

(** [str.lower] on ASCII text: [A]..[Z] move to [a]..[z]. *)
Definition lower_ascii_cp (c : N) : N :=
  if ((65 <=? c) && (c <=? 90))%N then (c + 32)%N else c.

Definition lower_ascii (s : pystr) : pystr := map lower_ascii_cp s.

Definition is_ascii (s : pystr) : Prop := Forall (fun c => (c < 128)%N) s.

(** ** [text.encode('utf-8')] and [bytes.decode('latin-1')]

    Bytes are numbers below 256.  Encoding fails ([None], Python's
    [UnicodeEncodeError]) on a surrogate code point. *)

Definition cont_byte (c : N) (shift : N) : N :=
  N.lor 128 (N.land (N.shiftr c shift) 63).

Definition utf8_encode_cp (c : N) : option (list N) :=
  if (c <? 128)%N then Some [c]
  else if (c <? 2048)%N then
    Some [N.lor 192 (N.shiftr c 6); cont_byte c 0]
  else if (c <? 65536)%N then
    if ((55296 <=? c) && (c <=? 57343))%N then None
    else Some [N.lor 224 (N.shiftr c 12); cont_byte c 6; cont_byte c 0]
  else if (c <? 1114112)%N then
    Some [N.lor 240 (N.shiftr c 18); cont_byte c 12; cont_byte c 6;
          cont_byte c 0]
  else None.

Fixpoint utf8_encode (s : pystr) : option (list N) :=
  match s with
  | [] => Some []
  | c :: s' =>
      match utf8_encode_cp c, utf8_encode s' with
      | Some bs, Some rest => Some (bs ++ rest)
      | _, _ => None
      end
  end.

(** Latin-1 maps byte [b] to code point [b]; it accepts every byte. *)
Definition latin1_decode (bs : list N) : pystr := bs.

(** ** Exceptions and the state-and-exception monad *)

Inductive exception :=
| RequestTimeout       (* requests.exceptions.Timeout *)
| ConnectionError      (* requests.exceptions.ConnectionError *)
| HTTPError            (* requests.exceptions.HTTPError *)
| IOError              (* OSError *)
| ValueError
| UnicodeEncodeError
| TypeError
| TelegramError
| OtherException.      (* any other subclass of Exception *)

(** What a [try] can see: an instance of [Exception], or a [BaseException]
    that is none: [KeyboardInterrupt], or [asyncio.CancelledError], the
    cancellation of the task that an [await] raises (what Ctrl-C under
    [asyncio.run] delivers). *)
Inductive exn :=
| Exception (x : exception)
| KeyboardInterrupt
| CancelledError.

Definition is_RequestException (x : exn) : bool :=
  match x with
  | Exception (RequestTimeout | ConnectionError | HTTPError) => true
  | _ => false
  end.

Definition is_IOError (x : exn) : bool :=
  match x with Exception IOError => true | _ => false end.

Definition is_Exception (x : exn) : bool :=
  match x with
  | Exception _ => true
  | KeyboardInterrupt | CancelledError => false
  end.

Definition is_KeyboardInterrupt (x : exn) : bool :=
  match x with
  | KeyboardInterrupt => true
  | Exception _ | CancelledError => false
  end.

Inductive outcome (A : Type) :=
| Ret (a : A)
| Raise (x : exn).
Arguments Ret {A} a.
Arguments Raise {A} x.

(** A [datetime]: naive, as [datetime.now()] gives it and the script
    writes it, or aware, read from a text that carries a UTC offset.  In
    both the number is the instant, in microseconds of local time. *)
Inductive datetime :=
| Naive (t : Z)
| Aware (t : Z).

Coercion Naive : Z >-> datetime.

Definition instant (d : datetime) : Z :=
  match d with Naive t | Aware t => t end.

(** The contents of one of the two files. *)
Inductive stored (A : Type) :=
| Absent               (* os.path.exists is False *)
| Broken               (* open, read or parsing raises *)
| Present (a : A).
Arguments Absent {A}.
Arguments Broken {A}.
Arguments Present {A} & a.

(** Calls that reach the outside world, in the order they are made. *)
Inductive event :=
| HttpGet
| CallNotify (message : pystr) (force : bool)
| SendMessage (text : pystr)
| WriteNotificationTime
| WriteStatus (status : pystr)
| Sleep (seconds : Z).

Record state := mkState {
  last_status : option pystr;          (* local of main *)
  consecutive_errors : Z;              (* local of main *)
  status_file : stored pystr;          (* last_status.txt *)
  notification_file : stored datetime; (* last_notification.txt *)
  trace : list event
}.

Definition M (A : Type) : Type := state -> outcome A * state.

Definition ret {A} (a : A) : M A := fun s => (Ret a, s).
Definition raise {A} (x : exn) : M A := fun s => (Raise x, s).

Definition bind {A B} (m : M A) (k : A -> M B) : M B :=
  fun s =>
    match m s with
    | (Ret a, s') => k a s'
    | (Raise x, s') => (Raise x, s')
    end.

Declare Scope py_scope.
Delimit Scope py_scope with py.
Notation "x <- m ;; k" := (bind m (fun x => k))
  (at level 61, m at next level, right associativity) : py_scope.
Notation "m ;; k" := (bind m (fun _ => k))
  (at level 61, right associativity) : py_scope.
Local Open Scope py_scope.

(** [try: body except C1 as x: h1 x except C2 as x: h2 x ...]: the first
    clause whose class matches handles the exception; an exception raised by
    a handler is not offered to the clauses after it. *)
Fixpoint dispatch {A} (clauses : list ((exn -> bool) * (exn -> M A)))
    (x : exn) : M A :=
  match clauses with
  | [] => raise x
  | (catches, handler) :: rest =>
      if catches x then handler x else dispatch rest x
  end.

Definition try_except {A} (body : M A)
    (clauses : list ((exn -> bool) * (exn -> M A))) : M A :=
  fun s =>
    match body s with
    | (Raise x, s') => dispatch clauses x s'
    | r => r
    end.

Definition emit (ev : event) : M unit :=
  fun s => (Ret tt, mkState (last_status s) (consecutive_errors s)
                      (status_file s) (notification_file s)
                      (trace s ++ [ev])).

Definition get {A} (f : state -> A) : M A := fun s => (Ret (f s), s).

Definition set_last_status (v : option pystr) : M unit :=
  fun s => (Ret tt, mkState v (consecutive_errors s) (status_file s)
                      (notification_file s) (trace s)).

Definition set_consecutive_errors (n : Z) : M unit :=
  fun s => (Ret tt, mkState (last_status s) n (status_file s)
                      (notification_file s) (trace s)).

Definition set_status_file (f : stored pystr) : M unit :=
  fun s => (Ret tt, mkState (last_status s) (consecutive_errors s) f
                      (notification_file s) (trace s)).

Definition set_notification_file (f : stored datetime) : M unit :=
  fun s => (Ret tt, mkState (last_status s) (consecutive_errors s)
                      (status_file s) f (trace s)).

(** ** The outside world, one iteration at a time *)

Inductive parse_outcome :=
| Parsed (text : pystr)              (* soup.text *)
| ParseRaises (x : exception).

Inductive fetch_outcome :=
| GetRaises (x : exception)          (* requests.get raises *)
| Response (status_code : Z) (soup : parse_outcome).

Inductive send_outcome :=
| Delivered
| SendRaises (x : exception).

(** Writing a file: the text is written; or [open(path, "w")] raises
    [IOError] and the file is left as it was; or the file is opened, which
    empties it, and writing or closing it raises [IOError], which leaves it
    empty. *)
Inductive write_outcome :=
| Written
| OpenRaisesIOError
| WriteRaisesIOError.

Inductive sleep_outcome :=
| Slept
| SleepRaises (x : exn).

Record env := mkEnv {
  page : fetch_outcome;               (* requests.get and BeautifulSoup *)
  now_check : Z;                      (* datetime.now() at the cooldown test *)
  send : send_outcome;                (* bot.send_message *)
  now_write : Z;                      (* datetime.now() when the time is stored *)
  notification_write : write_outcome; (* open(LAST_NOTIFICATION_FILE, "w") *)
  status_write : write_outcome;       (* open(LAST_STATUS_FILE, "w") *)
  sleep : sleep_outcome;              (* asyncio.sleep(sleep_time) *)
  retry_sleep : sleep_outcome         (* asyncio.sleep(60) of the handler *)
}.

(** ** Constants of the script *)

Definition AVAILABLE : pystr := lit "Tickets Potentially Available".
Definition NOT_AVAILABLE : pystr := lit "Tickets Not Available".
Definition ERROR : pystr := lit "Error".

Definition ticket_keywords : list pystr :=
  [lit "NEW YEAR"; lit "BUY TICKET"; lit "EVENT TICKET"].

(** [timedelta(minutes=30)], in microseconds like every time here. *)
Definition cooldown : Z := 30 * 60 * 1000000.

Definition max_consecutive_errors : Z := 5.

(** ** The status file *)

(** [str.isspace] of one code point. *)
Definition isspace (c : N) : bool :=
  ((9 <=? c) && (c <=? 13) || (28 <=? c) && (c <=? 32) ||
   (c =? 133) || (c =? 160) || (c =? 5760) ||
   (8192 <=? c) && (c <=? 8202) || (c =? 8232) || (c =? 8233) ||
   (c =? 8239) || (c =? 8287) || (c =? 12288))%N.

Fixpoint lstrip (s : pystr) : pystr :=
  match s with
  | c :: s' => if isspace c then lstrip s' else s
  | [] => []
  end.

Definition strip (s : pystr) : pystr := rev (lstrip (rev (lstrip s))).

Definition read_last_status : M (option pystr) :=
  try_except
    (f <- get status_file ;;
     match f with
     | Present content => ret (Some (strip content))
     | Broken => raise (Exception IOError)
     | Absent => ret None
     end)
    [(is_Exception, fun _ => ret None)].

Definition write_current_status (e : env) (status : pystr) : M unit :=
  try_except
    (emit (WriteStatus status) ;;
     match status_write e with
     | Written => set_status_file (Present status)
     | OpenRaisesIOError => raise (Exception IOError)
     | WriteRaisesIOError =>
         set_status_file (Present []) ;;
         raise (Exception IOError)
     end)
    [(is_IOError, fun _ => ret tt)].

(** ** The notification-time file *)

(** An empty file is a [Broken] one here: [fromisoformat] raises on it. *)
Definition read_last_notification_time : M (option datetime) :=
  try_except
    (f <- get notification_file ;;
     match f with
     | Present t => ret (Some t)
     | Broken => raise (Exception ValueError)
     | Absent => ret None
     end)
    [(is_Exception, fun _ => ret None)].

(** After a write that failed once the file was open, the file is empty,
    which reads as [Broken]. *)
Definition write_last_notification_time (e : env) : M unit :=
  try_except
    (emit WriteNotificationTime ;;
     match notification_write e with
     | Written => set_notification_file (Present (Naive (now_write e)))
     | OpenRaisesIOError => raise (Exception IOError)
     | WriteRaisesIOError =>
         set_notification_file Broken ;;
         raise (Exception IOError)
     end)
    [(is_IOError, fun _ => ret tt)].

(** ** The notifier *)

(** The message text chosen for a status (the [if]/[elif]/[else] chain). *)
Definition notification_text (message : pystr) : pystr :=
  if str_eqb message AVAILABLE then
    lit "Potential ticket availability detected for the New Year event! Check here: https://fomobaku.com/en/page/events"
  else if str_eqb message NOT_AVAILABLE then
    lit "Tickets are currently not available."
  else
    lit " Status: " ++ message.

(** [text.encode('utf-8').decode('latin-1')]. *)
Definition reencode (text : pystr) : M pystr :=
  match utf8_encode text with
  | Some bs => ret (latin1_decode bs)
  | None => raise (Exception UnicodeEncodeError)
  end.

Definition bot_send_message (e : env) (text : pystr) : M unit :=
  emit (SendMessage text) ;;
  match send e with
  | Delivered => ret tt
  | SendRaises x => raise (Exception x)
  end.

(** [force or not last_notification or
     datetime.now() - last_notification > timedelta(minutes=30)]: the
    subtraction of an aware time from the naive [datetime.now()] raises
    [TypeError]. *)
Definition cooldown_test (e : env) (force : bool)
    (last_notification : option datetime) : M bool :=
  if force then ret true
  else
    match last_notification with
    | None => ret true
    | Some (Naive t) => ret (cooldown <? now_check e - t)
    | Some (Aware _) => raise (Exception TypeError)
    end.

(** Whether that test comes out true. *)
Definition may_send (e : env) (force : bool)
    (last_notification : option datetime) : bool :=
  force ||
  match last_notification with
  | None => true
  | Some (Naive t) => cooldown <? now_check e - t
  | Some (Aware _) => false
  end.

Definition send_telegram_notification (e : env) (message : pystr)
    (force : bool) : M unit :=
  emit (CallNotify message force) ;;
  try_except
    (last_notification <- read_last_notification_time ;;
     go <- cooldown_test e force last_notification ;;
     if go then
       text <- reencode (notification_text message) ;;
       bot_send_message e text ;;
       write_last_notification_time e
     else
       ret tt)
    [(is_Exception, fun _ => ret tt)].

(** ** The availability check and the poll loop *)

(** [Response.raise_for_status] of the requests library: [HTTPError] for a
    status from 400 to 599, nothing for any other status. *)
Definition raise_for_status (status_code : Z) : M unit :=
  if (400 <=? status_code) && (status_code <? 600)
  then raise (Exception HTTPError)
  else ret tt.

Definition asyncio_sleep (o : sleep_outcome) (seconds : Z) : M unit :=
  emit (Sleep seconds) ;;
  match o with
  | Slept => ret tt
  | SleepRaises x => raise x
  end.

(** [current_status != last_status], where [last_status] may be [None]. *)
Definition status_changed (current : pystr) (last : option pystr) : bool :=
  match last with
  | None => true
  | Some l => negb (str_eqb current l)
  end.

Inductive ctl := Continue | Break.

Section Scraper.

(** [str.lower] follows the Unicode tables, which are no part of the
    script: the check is written over any lowering function. *)
Variable str_lower : pystr -> pystr.

Definition availability_indicators (text : pystr) : bool :=
  existsb (fun keyword => str_in (str_lower keyword) (str_lower text))
          ticket_keywords.

Definition check_ticket_availability (e : env) : M pystr :=
  try_except
    (emit HttpGet ;;
     match page e with
     | GetRaises x => raise (Exception x)
     | Response status_code soup =>
         raise_for_status status_code ;;
         match soup with
         | ParseRaises x => raise (Exception x)
         | Parsed text =>
             if availability_indicators text
             then ret AVAILABLE
             else ret NOT_AVAILABLE
         end
     end)
    [(is_RequestException, fun _ => ret ERROR);
     (is_Exception, fun _ => ret ERROR)].

(** The body of [while True], inside the [try], falls in three parts: the
    check, the comparison with the last status (lines 149 to 158) and the
    backoff with the exit test and the sleep (lines 160 to 174). *)
Definition compare_and_notify (e : env) (current_status : pystr) : M unit :=
  last <- get last_status ;;
  if status_changed current_status last then
    send_telegram_notification e current_status false ;;
    write_current_status e current_status ;;
    set_last_status (Some current_status)
  else
    send_telegram_notification e current_status true.

Definition backoff_and_sleep (e : env) (current_status : pystr) : M ctl :=
  sleep_time <-
    (if str_eqb current_status ERROR then
       n <- get consecutive_errors ;;
       set_consecutive_errors (n + 1) ;;
       ret (Z.min (60 * 2 ^ (n + 1)) 3600)
     else
       set_consecutive_errors 0 ;;
       ret 300) ;;
  n <- get consecutive_errors ;;
  if max_consecutive_errors <=? n then ret Break
  else
    asyncio_sleep (sleep e) sleep_time ;;
    ret Continue.

Definition loop_body (e : env) : M ctl :=
  current_status <- check_ticket_availability e ;;
  compare_and_notify e current_status ;;
  backoff_and_sleep e current_status.

(** The two [except] clauses of the loop: [KeyboardInterrupt] leaves it,
    any other exception is counted and followed by a minute of sleep. *)
Definition loop_excepts (e : env) : list ((exn -> bool) * (exn -> M ctl)) :=
  [(is_KeyboardInterrupt, fun _ => ret Break);
   (is_Exception, fun _ =>
      n <- get consecutive_errors ;;
      set_consecutive_errors (n + 1) ;;
      asyncio_sleep (retry_sleep e) 60 ;;
      ret Continue)].

(** One turn of the loop. *)
Definition iteration (e : env) : M ctl :=
  try_except (loop_body e) (loop_excepts e).

(** [while True] over the answers of the world to the coming iterations:
    [Break] when the loop was left, [Continue] when it is still running after
    the last of them. *)
Fixpoint while_true (es : list env) : M ctl :=
  match es with
  | [] => ret Continue
  | e :: es' =>
      c <- iteration e ;;
      match c with
      | Break => ret Break
      | Continue => while_true es'
      end
  end.

Definition main (es : list env) : M ctl :=
  set_consecutive_errors 0 ;;
  status <- read_last_status ;;
  set_last_status status ;;
  while_true es.

(** What the classifier's contract says of a page text: one of the
    keywords occurs in it when case is ignored, that is, between the two
    lowered strings. *)
Definition contains_ci (text keyword : pystr) : Prop :=
  exists pre post, str_lower text = pre ++ str_lower keyword ++ post.

(** The state of a process that has just started. *)
Definition boot (sf : stored pystr) (nf : stored datetime) : state :=
  mkState None 0 sf nf [].

(** ** Reading a trace *)

Definition sent_texts (tr : list event) : list pystr :=
  flat_map (fun ev => match ev with SendMessage t => [t] | _ => [] end) tr.

Definition slept (tr : list event) : list Z :=
  flat_map (fun ev => match ev with Sleep n => [n] | _ => [] end) tr.

Definition notify_calls (tr : list event) : list (pystr * bool) :=
  flat_map (fun ev => match ev with CallNotify m f => [(m, f)] | _ => [] end)
           tr.

Definition status_writes (tr : list event) : list pystr :=
  flat_map (fun ev => match ev with WriteStatus st => [st] | _ => [] end) tr.

Definition time_writes (tr : list event) : nat :=
  List.length (filter (fun ev => match ev with WriteNotificationTime => true
                                     | _ => false end) tr).

Definition fetches (tr : list event) : nat :=
  List.length (filter (fun ev => match ev with HttpGet => true | _ => false end)
                 tr).

(** The fetch or the parse raises: [requests.get] raises, or
    [raise_for_status] does (status 400 to 599), or BeautifulSoup does. *)
Definition fetch_fails (p : fetch_outcome) : bool :=
  match p with
  | GetRaises _ => true
  | Response code soup =>
      (400 <=? code) && (code <? 600) ||
      match soup with ParseRaises _ => true | Parsed _ => false end
  end.

(** The time [read_last_notification_time] finds in a file. *)
Definition last_time (f : stored datetime) : option datetime :=
  match f with
  | Present t => Some t
  | Absent | Broken => None
  end.

(** Two states that differ at most in the status file. *)
Definition same_but_status_file (s1 s2 : state) : Prop :=
  last_status s1 = last_status s2 /\
  consecutive_errors s1 = consecutive_errors s2 /\
  notification_file s1 = notification_file s2 /\
  trace s1 = trace s2.

(** A computation that never looks at the status file. *)
Definition ignores_status_file {A} (m : M A) : Prop :=
  forall s1 s2,
    same_but_status_file s1 s2 ->
    fst (m s1) = fst (m s2) /\
    same_but_status_file (snd (m s1)) (snd (m s2)).

(** ** Sample worlds *)

Definition minutes (n : Z) : Z := n * 60 * 1000000.

(** A world in which everything works and the page holds [text]. *)
Definition calm (text : pystr) (now : Z) : env :=
  mkEnv (Response 200 (Parsed text)) now Delivered now Written Written
        Slept Slept.

(** A world whose fetch times out. *)
Definition down (now : Z) : env :=
  mkEnv (GetRaises RequestTimeout) now Delivered now Written Written
        Slept Slept.

(** A world whose fetch times out and whose sleep is cut short by an
    exception. *)
Definition stormy (now : Z) : env :=
  mkEnv (GetRaises RequestTimeout) now Delivered now Written Written
        (SleepRaises (Exception OtherException)) Slept.

(** ** Auxiliary notions for the statements *)

(** The counter and the sleep time the backoff settles on for a status
    (lines 161 to 167), from the counter [n] before. *)
Definition backoff (status : pystr) (n : Z) : Z * Z :=
  if str_eqb status ERROR
  then (n + 1, Z.min (60 * 2 ^ (n + 1)) 3600)
  else (0, 300).

(** One of the three strings [check_ticket_availability] returns. *)
Definition is_status (st : pystr) : Prop :=
  st = AVAILABLE \/ st = NOT_AVAILABLE \/ st = ERROR.

(** A code point UTF-8 encodes: below 0x110000 and not a surrogate. *)
Definition encodable (c : N) : bool :=
  ((c <? 55296) || (57343 <? c) && (c <? 1114112))%N.

(** * Properties *)

(** ** Strings *)

Lemma str_eqb_eq (a b : pystr) : str_eqb a b = true <-> a = b.
Proof.
  revert b; induction a as [|x a IH]; intros [|y b]; simpl;
    try (split; [discriminate | discriminate]); [tauto|].
  rewrite andb_true_iff, N.eqb_eq, IH.
  split; [intros [-> ->]; reflexivity | intros H; inversion H; auto].
Qed.

Lemma str_eqb_refl (a : pystr) : str_eqb a a = true.
Proof. apply str_eqb_eq; reflexivity. Qed.

Lemma startswith_iff (hay needle : pystr) :
  startswith hay needle = true <-> exists post, hay = needle ++ post.
Proof.
  revert hay; induction needle as [|x needle IH]; intros [|y hay]; simpl.
  - split; [intros _; exists []; reflexivity | reflexivity].
  - split; [intros _; exists (y :: hay); reflexivity | reflexivity].
  - split; [discriminate | intros [post H]; discriminate].
  - rewrite andb_true_iff, N.eqb_eq, IH. split.
    + intros [-> [post ->]]. exists post. reflexivity.
    + intros [post H]. inversion H; subst. split; [reflexivity|].
      exists post. reflexivity.
Qed.

Lemma str_in_iff (needle hay : pystr) :
  str_in needle hay = true <->
  exists pre post, hay = pre ++ needle ++ post.
Proof.
  induction hay as [|y hay IH]; cbn [str_in].
  - rewrite orb_false_r, startswith_iff. split.
    + intros [post H]. exists [], post. exact H.
    + intros [pre [post H]]. destruct pre; [exists post; exact H|discriminate].
  - rewrite orb_true_iff, startswith_iff, IH. split.
    + intros [[post H] | [pre [post H]]].
      * exists [], post. exact H.
      * exists (y :: pre), post. simpl. rewrite H. reflexivity.
    + intros [pre [post H]]. destruct pre as [|z pre]; simpl in H.
      * left. exists post. exact H.
      * right. inversion H; subst. exists pre, post. reflexivity.
Qed.

Lemma is_ascii_forallb (s : pystr) :
  forallb (fun c => (c <? 128)%N) s = true -> is_ascii s.
Proof.
  intros H. apply Forall_forall. intros c Hc.
  rewrite forallb_forall in H. apply N.ltb_lt. apply H. exact Hc.
Qed.

(** ** The re-encoding of ASCII text *)

Lemma utf8_encode_ascii (s : pystr) : is_ascii s -> utf8_encode s = Some s.
Proof.
  induction 1 as [|c s Hc _ IH]; simpl; [reflexivity|].
  unfold utf8_encode_cp. apply N.ltb_lt in Hc. rewrite Hc, IH. reflexivity.
Qed.

Lemma reencode_ascii (text : pystr) (s : state) :
  is_ascii text -> reencode text s = (Ret text, s).
Proof.
  intros H. unfold reencode. rewrite (utf8_encode_ascii _ H). reflexivity.
Qed.

(** On ASCII text [str.lower] moves [A]..[Z] to [a]..[z] and nothing else. *)
Hypothesis str_lower_ascii :
  forall s, is_ascii s -> str_lower s = lower_ascii s.

(** ** The availability check *)

Lemma availability_indicators_iff (text : pystr) :
  availability_indicators text = true <->
  contains_ci text (lit "NEW YEAR") \/
  contains_ci text (lit "BUY TICKET") \/
  contains_ci text (lit "EVENT TICKET").
Proof.
  unfold availability_indicators, ticket_keywords. simpl.
  rewrite !orb_true_iff, !str_in_iff. unfold contains_ci.
  intuition discriminate.
Qed.

Lemma check_fetched (e : env) (s : state) (code : Z) (text : pystr) :
  page e = Response code (Parsed text) ->
  code < 400 \/ 600 <= code ->
  check_ticket_availability e s =
    (Ret (if availability_indicators text then AVAILABLE else NOT_AVAILABLE),
     snd (emit HttpGet s)).
Proof.
  intros Hp Hc.
  unfold check_ticket_availability, try_except, bind. simpl.
  rewrite Hp. unfold raise_for_status.
  replace ((400 <=? code) && (code <? 600)) with false
    by (symmetry; apply andb_false_iff; lia).
  simpl. destruct (availability_indicators text); reflexivity.
Qed.

Lemma check_failed (e : env) (s : state) :
  fetch_fails (page e) = true ->
  check_ticket_availability e s = (Ret ERROR, snd (emit HttpGet s)).
Proof.
  intros H.
  unfold check_ticket_availability, try_except, bind. simpl.
  destruct (page e) as [x | code soup]; simpl in *.
  - destruct x; reflexivity.
  - unfold raise_for_status.
    destruct ((400 <=? code) && (code <? 600)); simpl; [reflexivity|].
    destruct soup as [text | x]; [discriminate|].
    destruct x; reflexivity.
Qed.

Lemma check_total (e : env) (s : state) :
  exists st,
    check_ticket_availability e s = (Ret st, snd (emit HttpGet s)) /\
    (st = AVAILABLE \/ st = NOT_AVAILABLE \/ st = ERROR).
Proof.
  destruct (fetch_fails (page e)) eqn:Hf.
  - exists ERROR. split; [apply check_failed; exact Hf | tauto].
  - destruct (page e) as [x | code soup] eqn:Hp; simpl in Hf; [discriminate|].
    apply orb_false_iff in Hf. destruct Hf as [Hc Hs].
    destruct soup as [text | x]; [|discriminate].
    apply andb_false_iff in Hc.
    exists (if availability_indicators text then AVAILABLE else NOT_AVAILABLE).
    split.
    + apply (check_fetched e s code text Hp). lia.
    + destruct (availability_indicators text); tauto.
Qed.

Lemma statuses_differ :
  AVAILABLE <> NOT_AVAILABLE /\ AVAILABLE <> ERROR /\ NOT_AVAILABLE <> ERROR.
Proof. repeat split; discriminate. Qed.

Lemma lowered_keyword (k : string) :
  forallb (fun c => (c <? 128)%N) (lit k) = true ->
  str_lower (lit k) = lower_ascii (lit k).
Proof. intros H. apply str_lower_ascii, is_ascii_forallb, H. Qed.

Lemma empty_text_has_no_keyword (k : string) :
  forallb (fun c => (c <? 128)%N) (lit k) = true ->
  lit k <> [] ->
  ~ contains_ci [] (lit k).
Proof.
  intros Hk Hne [pre [post H]].
  rewrite (str_lower_ascii []) in H by constructor.
  rewrite (lowered_keyword k Hk) in H.
  destruct pre; [|discriminate].
  destruct (lit k); [congruence | discriminate].
Qed.

(** ** The notifier *)

Lemma sent_texts_app (a b : list event) :
  sent_texts (a ++ b) = sent_texts a ++ sent_texts b.
Proof. apply flat_map_app. Qed.

Lemma slept_app (a b : list event) : slept (a ++ b) = slept a ++ slept b.
Proof. apply flat_map_app. Qed.

Lemma notify_calls_app (a b : list event) :
  notify_calls (a ++ b) = notify_calls a ++ notify_calls b.
Proof. apply flat_map_app. Qed.

Lemma status_writes_app (a b : list event) :
  status_writes (a ++ b) = status_writes a ++ status_writes b.
Proof. apply flat_map_app. Qed.

Lemma time_writes_app (a b : list event) :
  time_writes (a ++ b) = (time_writes a + time_writes b)%nat.
Proof. unfold time_writes. rewrite filter_app, length_app. reflexivity. Qed.

Lemma fetches_app (a b : list event) :
  fetches (a ++ b) = (fetches a + fetches b)%nat.
Proof. unfold fetches. rewrite filter_app, length_app. reflexivity. Qed.

Lemma read_last_notification_time_eq (s : state) :
  read_last_notification_time s = (Ret (last_time (notification_file s)), s).
Proof.
  unfold read_last_notification_time, try_except, bind, get.
  destruct (notification_file s); reflexivity.
Qed.

Lemma cooldown_test_true (e : env) (force : bool)
    (last : option datetime) (s : state) :
  may_send e force last = true ->
  cooldown_test e force last s = (Ret true, s).
Proof.
  unfold may_send, cooldown_test. destruct force; [reflexivity|]. simpl.
  destruct last as [[t | t]|]; intros H; try discriminate;
    [rewrite H|]; reflexivity.
Qed.

Lemma cooldown_test_false (e : env) (force : bool)
    (last : option datetime) (s : state) :
  may_send e force last = false ->
  cooldown_test e force last s = (Ret false, s) \/
  cooldown_test e force last s = (Raise (Exception TypeError), s).
Proof.
  unfold may_send, cooldown_test. destruct force; [discriminate|]. simpl.
  destruct last as [[t | t]|]; intros H; try discriminate.
  - left. rewrite H. reflexivity.
  - right. reflexivity.
Qed.

(** The call when the cooldown test fails: nothing but the call itself. *)
Lemma notifier_skips (e : env) (message : pystr) (force : bool) (s : state) :
  may_send e force (last_time (notification_file s)) = false ->
  send_telegram_notification e message force s =
    (Ret tt, snd (emit (CallNotify message force) s)).
Proof.
  intros H.
  unfold send_telegram_notification, bind at 1. simpl.
  unfold try_except, bind at 1.
  rewrite read_last_notification_time_eq. simpl. unfold bind at 1.
  destruct (cooldown_test_false e force _
              (snd (emit (CallNotify message force) s)) H) as [E | E];
    simpl in E; rewrite E; reflexivity.
Qed.

(** The call when the test passes and the text can be encoded. *)
Lemma notifier_sends (e : env) (message text : pystr) (force : bool)
    (s : state) :
  may_send e force (last_time (notification_file s)) = true ->
  utf8_encode (notification_text message) = Some text ->
  send_telegram_notification e message force s =
    (Ret tt,
     mkState (last_status s) (consecutive_errors s) (status_file s)
       (match send e, notification_write e with
        | Delivered, Written => Present (Naive (now_write e))
        | Delivered, WriteRaisesIOError => Broken
        | _, _ => notification_file s
        end)
       (trace s ++ [CallNotify message force] ++ [SendMessage text] ++
        match send e with
        | Delivered => [WriteNotificationTime]
        | SendRaises _ => []
        end)).
Proof.
  intros H Hu.
  unfold send_telegram_notification, bind at 1. simpl.
  unfold try_except, bind at 1.
  rewrite read_last_notification_time_eq. simpl. unfold bind at 1.
  pose proof (cooldown_test_true e force _
                (snd (emit (CallNotify message force) s)) H) as E.
  simpl in E. rewrite E.
  unfold bind, reencode, bot_send_message, write_last_notification_time,
    try_except, bind. rewrite Hu. simpl.
  destruct (send e), (notification_write e); simpl;
    rewrite <- ?app_assoc; reflexivity.
Qed.

(** The call when the test passes and the text cannot be encoded. *)
Lemma notifier_cannot_encode (e : env) (message : pystr) (force : bool)
    (s : state) :
  may_send e force (last_time (notification_file s)) = true ->
  utf8_encode (notification_text message) = None ->
  send_telegram_notification e message force s =
    (Ret tt, snd (emit (CallNotify message force) s)).
Proof.
  intros H Hu.
  unfold send_telegram_notification, bind at 1. simpl.
  unfold try_except, bind at 1.
  rewrite read_last_notification_time_eq. simpl. unfold bind at 1.
  pose proof (cooldown_test_true e force _
                (snd (emit (CallNotify message force) s)) H) as E.
  simpl in E. rewrite E.
  unfold bind, reencode. rewrite Hu. reflexivity.
Qed.

Lemma notifier_returns (e : env) (message : pystr) (force : bool)
    (s : state) :
  fst (send_telegram_notification e message force s) = Ret tt /\
  last_status (snd (send_telegram_notification e message force s)) =
    last_status s /\
  consecutive_errors (snd (send_telegram_notification e message force s)) =
    consecutive_errors s /\
  status_file (snd (send_telegram_notification e message force s)) =
    status_file s.
Proof.
  destruct (may_send e force (last_time (notification_file s))) eqn:H.
  - destruct (utf8_encode (notification_text message)) as [text|] eqn:Hu.
    + rewrite (notifier_sends e message text force s H Hu). simpl. tauto.
    + rewrite (notifier_cannot_encode e message force s H Hu). simpl. tauto.
  - rewrite (notifier_skips e message force s H). simpl. tauto.
Qed.

Lemma may_send_iff (e : env) (force : bool) (f : stored datetime) :
  may_send e force (last_time f) = true <->
  force = true \/
  (forall t, f <> Present t) \/
  (exists t : Z, f = Present t /\ cooldown < now_check e - t).
Proof.
  unfold may_send. rewrite orb_true_iff. split.
  - intros [H | H]; [left; exact H | right].
    destruct f as [| | [t | t]]; simpl in H.
    + left. intros t. discriminate.
    + left. intros t. discriminate.
    + right. exists t. split; [reflexivity | apply Z.ltb_lt, H].
    + discriminate.
  - intros [H | [H | [t [-> H]]]]; [left; exact H | right | right].
    + destruct f as [| | d]; simpl; [reflexivity | reflexivity |].
      exfalso. apply (H d). reflexivity.
    + simpl. apply Z.ltb_lt, H.
Qed.

(** ** One turn of the loop *)

Lemma bind_ret {A B} (m : M A) (k : A -> M B) (s s' : state) (a : A) :
  m s = (Ret a, s') -> bind m k s = k a s'.
Proof. intros H. unfold bind. rewrite H. reflexivity. Qed.

Lemma try_except_bind {A B} (m : M A) (k : A -> M B)
    (clauses : list ((exn -> bool) * (exn -> M B))) (s s' : state) (a : A) :
  m s = (Ret a, s') ->
  try_except (bind m k) clauses s = try_except (k a) clauses s'.
Proof. intros H. unfold try_except, bind. rewrite H. reflexivity. Qed.

Lemma write_current_status_eq (e : env) (status : pystr) (s : state) :
  write_current_status e status s =
    (Ret tt,
     mkState (last_status s) (consecutive_errors s)
       (match status_write e with
        | Written => Present status
        | OpenRaisesIOError => status_file s
        | WriteRaisesIOError => Present []
        end)
       (notification_file s) (trace s ++ [WriteStatus status])).
Proof.
  unfold write_current_status, try_except, bind. simpl.
  destruct (status_write e); reflexivity.
Qed.

(** What a call of the notifier adds to the trace. *)
Lemma notifier_trace (e : env) (message : pystr) (force : bool) (s : state) :
  exists evs,
    trace (snd (send_telegram_notification e message force s)) =
      trace s ++ CallNotify message force :: evs /\
    notify_calls evs = [] /\ status_writes evs = [] /\ slept evs = [] /\
    fetches evs = 0%nat.
Proof.
  destruct (may_send e force (last_time (notification_file s))) eqn:H.
  - destruct (utf8_encode (notification_text message)) as [text|] eqn:Hu.
    + rewrite (notifier_sends e message text force s H Hu). simpl.
      eexists. split; [reflexivity|].
      destruct (send e); repeat split.
    + rewrite (notifier_cannot_encode e message force s H Hu).
      exists []. repeat split.
  - rewrite (notifier_skips e message force s H).
    exists []. repeat split.
Qed.

Lemma notifier_pair (e : env) (message : pystr) (force : bool) (s : state) :
  send_telegram_notification e message force s =
    (Ret tt, snd (send_telegram_notification e message force s)).
Proof.
  destruct (notifier_returns e message force s) as [H _].
  destruct (send_telegram_notification e message force s) as [r s'].
  simpl in *. subst r. reflexivity.
Qed.

Lemma compare_changed (e : env) (status : pystr) (s : state) :
  status_changed status (last_status s) = true ->
  compare_and_notify e status s =
    (Ret tt,
     mkState (Some status) (consecutive_errors s)
       (match status_write e with
        | Written => Present status
        | OpenRaisesIOError => status_file s
        | WriteRaisesIOError => Present []
        end)
       (notification_file
          (snd (send_telegram_notification e status false s)))
       (trace (snd (send_telegram_notification e status false s)) ++
        [WriteStatus status])).
Proof.
  intros H. unfold compare_and_notify, bind at 1. simpl. rewrite H.
  rewrite (bind_ret _ _ _ _ _ (notifier_pair e status false s)).
  rewrite (bind_ret _ _ _ _ _ (write_current_status_eq e status _)).
  destruct (notifier_returns e status false s) as [_ [_ [Hc Hf]]].
  unfold set_last_status. simpl. rewrite Hc, Hf. reflexivity.
Qed.

Lemma compare_unchanged (e : env) (status : pystr) (s : state) :
  status_changed status (last_status s) = false ->
  compare_and_notify e status s =
    (Ret tt, snd (send_telegram_notification e status true s)).
Proof.
  intros H. unfold compare_and_notify, bind at 1. simpl. rewrite H.
  apply notifier_pair.
Qed.

(** The comparison returns, leaves the error counter alone and neither
    fetches nor sleeps. *)
Lemma compare_frame (e : env) (status : pystr) (s : state) :
  exists s2 evs,
    compare_and_notify e status s = (Ret tt, s2) /\
    consecutive_errors s2 = consecutive_errors s /\
    trace s2 = trace s ++ evs /\
    slept evs = [] /\ fetches evs = 0%nat.
Proof.
  destruct (notifier_trace e status false s) as [ev1 [Ht1 [_ [_ [Hs1 Hf1]]]]].
  destruct (notifier_trace e status true s) as [ev2 [Ht2 [_ [_ [Hs2 Hf2]]]]].
  destruct (status_changed status (last_status s)) eqn:H.
  - rewrite (compare_changed e status s H).
    eexists. exists ((CallNotify status false :: ev1) ++ [WriteStatus status]).
    split; [reflexivity|]. simpl. rewrite Ht1.
    split; [reflexivity|]. split; [rewrite <- app_assoc; reflexivity|].
    rewrite slept_app, Hs1. split; [reflexivity|].
    change (fetches (CallNotify status false :: ev1 ++ [WriteStatus status]))
      with (fetches (ev1 ++ [WriteStatus status])).
    rewrite fetches_app, Hf1. reflexivity.
  - rewrite (compare_unchanged e status s H).
    eexists. exists (CallNotify status true :: ev2).
    split; [reflexivity|].
    destruct (notifier_returns e status true s) as [_ [_ [Hc _]]].
    split; [exact Hc|]. split; [exact Ht2|].
    split; [exact Hs2 | exact Hf2].
Qed.

(** The backoff, the exit test, the sleep and the handlers touch neither
    the last status nor the files, and call neither the notifier nor
    [write_current_status]. *)
Lemma backoff_frame (e : env) (status : pystr) (s : state) :
  let r := try_except (backoff_and_sleep e status) (loop_excepts e) s in
  last_status (snd r) = last_status s /\
  status_file (snd r) = status_file s /\
  notification_file (snd r) = notification_file s /\
  exists evs,
    trace (snd r) = trace s ++ evs /\
    notify_calls evs = [] /\ status_writes evs = [] /\ sent_texts evs = [].
Proof.
  unfold backoff_and_sleep, loop_excepts, try_except, bind, asyncio_sleep,
    bind, get, set_consecutive_errors, emit, ret, raise.
  destruct (str_eqb status ERROR); simpl;
    try match goal with
        | |- context [?a <=? ?b] => destruct (a <=? b)
        end; simpl.
  all: try (repeat split; exists []; rewrite app_nil_r; repeat split; fail).
  all: destruct (sleep e) as [|[x| |]]; simpl.
  all: try (repeat split; eexists; repeat split; fail).
  all: destruct (retry_sleep e); simpl.
  all: repeat split; eexists; rewrite <- app_assoc; repeat split.
Qed.

(** A turn whose check fails and whose sleep is not disturbed: the counter
    goes up by one; from five on the loop is left without sleeping, below
    five it sleeps [min(60 * 2 ** consecutive_errors, 3600)] seconds. *)
Lemma error_iteration (e : env) (s : state) :
  fetch_fails (page e) = true ->
  sleep e = Slept ->
  exists s',
    iteration e s =
      (if max_consecutive_errors <=? consecutive_errors s + 1
       then Ret Break else Ret Continue, s') /\
    consecutive_errors s' = consecutive_errors s + 1 /\
    slept (trace s') =
      slept (trace s) ++
      (if max_consecutive_errors <=? consecutive_errors s + 1 then []
       else [Z.min (60 * 2 ^ (consecutive_errors s + 1)) 3600]) /\
    fetches (trace s') = (fetches (trace s) + 1)%nat.
Proof.
  intros Hf Hs. unfold iteration, loop_body.
  rewrite (try_except_bind _ _ _ _ _ _ (check_failed e s Hf)).
  destruct (compare_frame e ERROR (snd (emit HttpGet s)))
    as [s2 [evs [Hc [Hn [Ht [Hsl Hfe]]]]]].
  rewrite (try_except_bind _ _ _ _ _ _ Hc).
  simpl in Hn, Ht.
  unfold backoff_and_sleep, loop_excepts, try_except, bind, asyncio_sleep,
    bind, get, set_consecutive_errors, emit, ret, raise.
  rewrite str_eqb_refl, Hs. simpl. rewrite Hn.
  destruct (max_consecutive_errors <=? consecutive_errors s + 1); simpl;
    eexists; (split; [reflexivity|]); simpl; (split; [reflexivity|]);
    rewrite Ht, ?slept_app, ?fetches_app, Hsl, Hfe; simpl;
    rewrite ?app_nil_r; split; try reflexivity;
    unfold fetches; simpl; lia.
Qed.

(** C2: five turns in a row whose check fails, from a counter of zero and
    with undisturbed sleeps: the first four sleep
    [min(60 * 2 ** k, 3600)] seconds for [k] from 1 to 4, which is 120, 240,
    480 and 960 seconds; the fifth sets the counter to five and leaves the
    loop without sleeping, and the loop is not left before it. *)
Theorem error_backoff (es : list env) (s : state) :
  List.length es = 5%nat ->
  Forall (fun e => fetch_fails (page e) = true /\ sleep e = Slept) es ->
  consecutive_errors s = 0 ->
  let r := while_true es s in
  fst r = Ret Break /\
  consecutive_errors (snd r) = 5 /\
  slept (trace (snd r)) =
    slept (trace s) ++ map (fun k => Z.min (60 * 2 ^ k) 3600) [1; 2; 3; 4] /\
  map (fun k => Z.min (60 * 2 ^ k) 3600) [1; 2; 3; 4] = [120; 240; 480; 960] /\
  fetches (trace (snd r)) = (fetches (trace s) + 5)%nat /\
  (forall k, (k < 5)%nat -> fst (while_true (firstn k es) s) = Ret Continue).
Proof.
  intros Hlen Hall H0.
  destruct es as [|e1 [|e2 [|e3 [|e4 [|e5 [|e6 es]]]]]]; try discriminate.
  repeat match goal with
         | H : Forall _ (_ :: _) |- _ => inversion H; clear H; subst
         end.
  repeat match goal with H : _ /\ _ |- _ => destruct H end.
  destruct (error_iteration e1 s) as [s1 [I1 [C1 [S1 F1]]]]; auto.
  destruct (error_iteration e2 s1) as [s2 [I2 [C2 [S2 F2]]]]; auto.
  destruct (error_iteration e3 s2) as [s3 [I3 [C3 [S3 F3]]]]; auto.
  destruct (error_iteration e4 s3) as [s4 [I4 [C4 [S4 F4]]]]; auto.
  destruct (error_iteration e5 s4) as [s5 [I5 [C5 [S5 F5]]]]; auto.
  rewrite H0 in *. simpl in C1. rewrite C1 in *. simpl in C2.
  rewrite C2 in *. simpl in C3. rewrite C3 in *. simpl in C4.
  rewrite C4 in *. simpl in C5.
  change (max_consecutive_errors <=? 0 + 1) with false in *.
  change (max_consecutive_errors <=? 1 + 1) with false in *.
  change (max_consecutive_errors <=? 2 + 1) with false in *.
  change (max_consecutive_errors <=? 3 + 1) with false in *.
  change (max_consecutive_errors <=? 4 + 1) with true in *.
  cbv zeta.
  assert (R : while_true [e1; e2; e3; e4; e5] s = (Ret Break, s5)).
  { simpl. unfold bind. rewrite I1, I2, I3, I4, I5. reflexivity. }
  rewrite R. simpl fst. simpl snd.
  split; [reflexivity|]. split; [exact C5|].
  split.
  { rewrite S5, S4, S3, S2, S1, app_nil_r, <- !app_assoc. reflexivity. }
  split; [reflexivity|]. split; [lia|].
  intros k Hk.
  destruct k as [|[|[|[|[|k]]]]]; try lia; simpl; unfold bind;
    rewrite ?I1, ?I2, ?I3, ?I4; reflexivity.
Qed.

(** C8: a turn that starts with "Tickets Not Available" as the last status
    and whose check returns "Tickets Potentially Available" calls the
    notifier once, with [force] false, calls [write_current_status] once,
    with the new status, which is then the content of the status file when
    the file can be opened, and ends with the new status as the last
    status. *)
Theorem transition_to_available (e : env) (s : state) :
  last_status s = Some NOT_AVAILABLE ->
  fst (check_ticket_availability e s) = Ret AVAILABLE ->
  let s' := snd (iteration e s) in
  exists evs,
    trace s' = trace s ++ evs /\
    notify_calls evs = [(AVAILABLE, false)] /\
    status_writes evs = [AVAILABLE] /\
    (status_write e = Written -> status_file s' = Present AVAILABLE) /\
    last_status s' = Some AVAILABLE.
Proof.
  intros Hl Hc.
  assert (Hcheck : check_ticket_availability e s =
                     (Ret AVAILABLE, snd (emit HttpGet s))).
  { destruct (check_total e s) as [st [Hst _]].
    rewrite Hst in Hc. simpl in Hc. injection Hc as ->. exact Hst. }
  set (s1 := snd (emit HttpGet s)) in *.
  assert (Hch : status_changed AVAILABLE (last_status s1) = true).
  { unfold s1. simpl. rewrite Hl. reflexivity. }
  cbv zeta. unfold iteration, loop_body.
  rewrite (try_except_bind _ _ _ _ _ _ Hcheck).
  rewrite (try_except_bind _ _ _ _ _ _ (compare_changed e AVAILABLE s1 Hch)).
  match goal with
  | |- context [try_except _ _ ?st] =>
      destruct (backoff_frame e AVAILABLE st)
        as [B1 [B2 [B3 [ev3 [B4 [B5 [B6 _]]]]]]]
  end.
  destruct (notifier_trace e AVAILABLE false s1)
    as [ev1 [N1 [N2 [N3 _]]]].
  exists ([HttpGet] ++ [CallNotify AVAILABLE false] ++ ev1 ++
          [WriteStatus AVAILABLE] ++ ev3).
  rewrite B1, B2, B4. cbn [last_status status_file trace].
  split.
  { rewrite N1. unfold s1. simpl. rewrite <- !app_assoc. reflexivity. }
  split.
  { rewrite !notify_calls_app, N2, B5. reflexivity. }
  split.
  { rewrite !status_writes_app, N3, B6. reflexivity. }
  split.
  { intros Hw. rewrite Hw. reflexivity. }
  reflexivity.
Qed.

(** ** Computations that never look at the status file *)

Lemma same_but_status_file_refl (s : state) : same_but_status_file s s.
Proof. repeat split. Qed.

Lemma ignores_ret {A} (a : A) : ignores_status_file (ret a).
Proof. intros s1 s2 H. split; [reflexivity | exact H]. Qed.

Lemma ignores_raise {A} (x : exn) : ignores_status_file (@raise A x).
Proof. intros s1 s2 H. split; [reflexivity | exact H]. Qed.

Lemma ignores_bind {A B} (m : M A) (k : A -> M B) :
  ignores_status_file m ->
  (forall a, ignores_status_file (k a)) ->
  ignores_status_file (bind m k).
Proof.
  intros Hm Hk s1 s2 H. unfold bind.
  destruct (Hm s1 s2 H) as [E S].
  destruct (m s1) as [r1 t1], (m s2) as [r2 t2]. simpl in E, S. subst r2.
  destruct r1 as [a | x]; [apply Hk, S | split; [reflexivity | exact S]].
Qed.

Lemma ignores_dispatch {A}
    (clauses : list ((exn -> bool) * (exn -> M A))) (x : exn) :
  Forall (fun cl => forall y, ignores_status_file (snd cl y)) clauses ->
  ignores_status_file (dispatch clauses x).
Proof.
  induction 1 as [|[catches handler] rest Hh _ IH]; simpl.
  - apply ignores_raise.
  - destruct (catches x); [apply Hh | exact IH].
Qed.

Lemma ignores_try_except {A} (body : M A)
    (clauses : list ((exn -> bool) * (exn -> M A))) :
  ignores_status_file body ->
  Forall (fun cl => forall y, ignores_status_file (snd cl y)) clauses ->
  ignores_status_file (try_except body clauses).
Proof.
  intros Hb Hc s1 s2 H. unfold try_except.
  destruct (Hb s1 s2 H) as [E S].
  destruct (body s1) as [r1 t1], (body s2) as [r2 t2]. simpl in E, S. subst r2.
  destruct r1 as [a | x]; [split; [reflexivity | exact S]|].
  apply ignores_dispatch; assumption.
Qed.

Lemma ignores_emit (ev : event) : ignores_status_file (emit ev).
Proof.
  intros s1 s2 [H1 [H2 [H3 H4]]]. unfold emit. simpl.
  split; [reflexivity|]. repeat split; simpl; congruence.
Qed.

Lemma ignores_get_last_status : ignores_status_file (get last_status).
Proof.
  intros s1 s2 H. unfold get. simpl. destruct H as [H1 H']. rewrite H1.
  split; [reflexivity|]. split; assumption.
Qed.

Lemma ignores_get_consecutive_errors :
  ignores_status_file (get consecutive_errors).
Proof.
  intros s1 s2 H. unfold get. simpl. destruct H as [H1 [H2 H']]. rewrite H2.
  split; [reflexivity|]. repeat split; tauto.
Qed.

Lemma ignores_get_notification_file :
  ignores_status_file (get notification_file).
Proof.
  intros s1 s2 H. unfold get. simpl. destruct H as [H1 [H2 [H3 H4]]].
  rewrite H3. split; [reflexivity|]. repeat split; assumption.
Qed.

Lemma ignores_set_last_status (v : option pystr) :
  ignores_status_file (set_last_status v).
Proof.
  intros s1 s2 [H1 [H2 [H3 H4]]]. unfold set_last_status. simpl.
  split; [reflexivity|]. repeat split; simpl; assumption.
Qed.

Lemma ignores_set_consecutive_errors (n : Z) :
  ignores_status_file (set_consecutive_errors n).
Proof.
  intros s1 s2 [H1 [H2 [H3 H4]]]. unfold set_consecutive_errors. simpl.
  split; [reflexivity|]. repeat split; simpl; assumption.
Qed.

Lemma ignores_set_status_file (f : stored pystr) :
  ignores_status_file (set_status_file f).
Proof.
  intros s1 s2 [H1 [H2 [H3 H4]]]. unfold set_status_file. simpl.
  split; [reflexivity|]. repeat split; simpl; assumption.
Qed.

Lemma ignores_set_notification_file (f : stored datetime) :
  ignores_status_file (set_notification_file f).
Proof.
  intros s1 s2 [H1 [H2 [H3 H4]]]. unfold set_notification_file. simpl.
  split; [reflexivity|]. repeat split; simpl; assumption.
Qed.

Create HintDb ignores.
#[local] Hint Resolve ignores_ret ignores_raise ignores_emit
  ignores_get_last_status ignores_get_consecutive_errors
  ignores_get_notification_file ignores_set_last_status
  ignores_set_consecutive_errors ignores_set_status_file
  ignores_set_notification_file : ignores.

Ltac ignores_step :=
  match goal with
  | |- ignores_status_file (bind _ _) => apply ignores_bind; [|intros ?]
  | |- ignores_status_file (try_except _ _) => apply ignores_try_except
  | |- Forall _ (_ :: _) => constructor; [simpl; intros ?|]
  | |- Forall _ [] => constructor
  | |- ignores_status_file (match ?x with _ => _ end) => destruct x
  | |- ignores_status_file (if ?b then _ else _) => destruct b
  | |- ignores_status_file _ => solve [auto with ignores]
  end.

Lemma ignores_notifier (e : env) (message : pystr) (force : bool) :
  ignores_status_file (send_telegram_notification e message force).
Proof.
  unfold send_telegram_notification, read_last_notification_time,
    cooldown_test, reencode, bot_send_message, write_last_notification_time.
  repeat ignores_step.
Qed.

Lemma ignores_write_current_status (e : env) (status : pystr) :
  ignores_status_file (write_current_status e status).
Proof. unfold write_current_status. repeat ignores_step. Qed.

Lemma ignores_iteration (e : env) : ignores_status_file (iteration e).
Proof.
  pose proof ignores_notifier. pose proof ignores_write_current_status.
  unfold iteration, loop_body, loop_excepts, check_ticket_availability,
    compare_and_notify, backoff_and_sleep, raise_for_status, asyncio_sleep.
  repeat ignores_step.
Qed.

Lemma ignores_while_true (es : list env) :
  ignores_status_file (while_true es).
Proof.
  induction es as [|e es IH]; simpl.
  - apply ignores_ret.
  - apply ignores_bind; [apply ignores_iteration|].
    intros [|]; [exact IH | apply ignores_ret].
Qed.

Lemma read_last_status_none (s : state) :
  status_file s = Absent \/ status_file s = Broken ->
  read_last_status s = (Ret None, s).
Proof.
  unfold read_last_status, try_except, bind, get.
  intros [H | H]; rewrite H; reflexivity.
Qed.

(** C9: with the status file missing or unreadable, [read_last_status]
    returns [None] and raises nothing, and the run that follows makes the
    same calls and ends with the same result and the same state, the
    content of the status file apart, as the run of a process that starts
    without a status file. *)
Theorem missing_status_file_is_first_run
    (f : stored pystr) (nf : stored datetime) (es : list env) :
  f = Absent \/ f = Broken ->
  (forall s, status_file s = f -> read_last_status s = (Ret None, s)) /\
  fst (main es (boot f nf)) = fst (main es (boot Absent nf)) /\
  same_but_status_file (snd (main es (boot f nf)))
                       (snd (main es (boot Absent nf))).
Proof.
  intros Hf. split.
  - intros s Hs. apply read_last_status_none. rewrite Hs. exact Hf.
  - assert (Hm : forall g, g = Absent \/ g = Broken ->
                  main es (boot g nf) = while_true es (boot g nf)).
    { intros g Hg. unfold main, bind at 1. simpl. unfold bind at 1.
      rewrite read_last_status_none by exact Hg. reflexivity. }
    rewrite (Hm f Hf), (Hm Absent (or_introl eq_refl)).
    apply ignores_while_true. repeat split.
Qed.

(** C3: a fetched page text is classified "Tickets Potentially Available"
    exactly when one of 'NEW YEAR', 'BUY TICKET', 'EVENT TICKET' occurs in it
    with case ignored, and "Tickets Not Available" exactly when none does;
    the empty text is "Tickets Not Available" and not "Error". *)
Theorem classification_by_keywords
    (e : env) (s : state) (code : Z) (text : pystr) :
  page e = Response code (Parsed text) ->
  code < 400 \/ 600 <= code ->
  let has_keyword :=
    contains_ci text (lit "NEW YEAR") \/
    contains_ci text (lit "BUY TICKET") \/
    contains_ci text (lit "EVENT TICKET") in
  let status := fst (check_ticket_availability e s) in
  (status = Ret AVAILABLE <-> has_keyword) /\
  (status = Ret NOT_AVAILABLE <-> ~ has_keyword) /\
  (text = [] -> status = Ret NOT_AVAILABLE /\ status <> Ret ERROR).
Proof.
  intros Hp Hc has_keyword status.
  assert (Hs : status =
    Ret (if availability_indicators text then AVAILABLE else NOT_AVAILABLE)).
  { unfold status. rewrite (check_fetched e s code text Hp Hc). reflexivity. }
  pose proof (availability_indicators_iff text) as Hi.
  fold has_keyword in Hi.
  assert (Hyes : status = Ret AVAILABLE <-> has_keyword).
  { rewrite Hs, <- Hi.
    destruct (availability_indicators text); split; intros H;
      try reflexivity; try discriminate. }
  assert (Hno : status = Ret NOT_AVAILABLE <-> ~ has_keyword).
  { rewrite Hs, <- Hi.
    destruct (availability_indicators text); split; intros H;
      try reflexivity; try discriminate; try congruence;
      exfalso; apply H; reflexivity. }
  split; [exact Hyes|]. split; [exact Hno|].
  intros ->.
  assert (Hnone : ~ has_keyword).
  { unfold has_keyword. intros [H | [H | H]]; revert H;
      apply empty_text_has_no_keyword; (reflexivity || discriminate). }
  apply Hno in Hnone. split; [exact Hnone|].
  rewrite Hnone. discriminate.
Qed.

(** C7: when [requests.get] raises, when the response has a status from 400
    to 599, or when building or reading the soup raises, the check returns
    "Error" to its caller and raises nothing; a response with any other
    status is classified by its text. *)
Theorem fetch_failure_is_error (e : env) (s : state) :
  ((exists x, page e = GetRaises x) \/
   (exists code soup, page e = Response code soup /\ 400 <= code < 600) \/
   (exists code x, page e = Response code (ParseRaises x)) ->
   check_ticket_availability e s = (Ret ERROR, snd (emit HttpGet s))) /\
  (forall code text,
     page e = Response code (Parsed text) ->
     code < 400 \/ 600 <= code ->
     check_ticket_availability e s =
       (Ret (if availability_indicators text
             then AVAILABLE else NOT_AVAILABLE),
        snd (emit HttpGet s))).
Proof.
  split.
  - intros H. apply check_failed.
    destruct H as [[x H] | [[code [soup [H Hc]]] | [code [x H]]]];
      rewrite H; simpl; [reflexivity | | apply orb_true_r].
    apply orb_true_iff. left. apply andb_true_iff.
    split; [apply Z.leb_le | apply Z.ltb_lt]; lia.
  - intros code text Hp Hc. apply (check_fetched e s code text Hp Hc).
Qed.

(** C5: a call to the notifier whose text can be encoded reaches
    [bot.send_message] exactly when [force] is true, or no stored
    notification time can be read, or the stored time is a naive one, as
    the script writes it, and more than 30 minutes passed since it;
    otherwise the call changes nothing (the trace records only that the
    call was made).  A stored time with a UTC offset is none of the three:
    the subtraction raises [TypeError] and the call ends in the [except]
    clause. *)
Theorem notifier_eligibility
    (e : env) (message text : pystr) (force : bool) (s : state) :
  utf8_encode (notification_text message) = Some text ->
  let eligible :=
    force = true \/
    (forall t, notification_file s <> Present t) \/
    (exists t : Z, notification_file s = Present t /\
                   cooldown < now_check e - t) in
  let s' := snd (send_telegram_notification e message force s) in
  (sent_texts (trace s') = sent_texts (trace s) ++ [text] <-> eligible) /\
  (~ eligible -> s' = snd (emit (CallNotify message force) s)).
Proof.
  intros Hu eligible s'.
  pose proof (may_send_iff e force (notification_file s)) as Hm.
  fold eligible in Hm.
  destruct (may_send e force (last_time (notification_file s))) eqn:H.
  - assert (He : eligible) by (apply Hm; reflexivity).
    split; [|intros Hn; contradiction].
    split; [intros _; exact He | intros _].
    unfold s'. rewrite (notifier_sends e message text force s H Hu). simpl.
    rewrite !sent_texts_app. simpl.
    destruct (send e); simpl; rewrite ?app_nil_r; reflexivity.
  - assert (He : ~ eligible) by (intros He; apply Hm in He; discriminate).
    unfold s'. rewrite (notifier_skips e message force s H). simpl.
    split; [|intros _; reflexivity].
    split; [intros Hs | intros Hy; contradiction].
    rewrite sent_texts_app in Hs. simpl in Hs. rewrite app_nil_r in Hs.
    apply (f_equal (@List.length pystr)) in Hs.
    rewrite length_app in Hs. simpl in Hs. lia.
Qed.

(** C6: when [bot.send_message] raises, the notifier returns normally and
    the stored notification time is as before: the file is not written and
    no write of it is even tried. *)
Theorem failed_delivery_keeps_throttle
    (e : env) (message : pystr) (force : bool) (s : state) (x : exception) :
  send e = SendRaises x ->
  let r := send_telegram_notification e message force s in
  fst r = Ret tt /\
  notification_file (snd r) = notification_file s /\
  time_writes (trace (snd r)) = time_writes (trace s).
Proof.
  intros Hx r. unfold r.
  destruct (may_send e force (last_time (notification_file s))) eqn:H.
  - destruct (utf8_encode (notification_text message)) as [text|] eqn:Hu.
    + rewrite (notifier_sends e message text force s H Hu), Hx. simpl.
      rewrite !time_writes_app. unfold time_writes. simpl.
      repeat split. lia.
    + rewrite (notifier_cannot_encode e message force s H Hu). simpl.
      rewrite time_writes_app. unfold time_writes. simpl.
      repeat split. lia.
  - rewrite (notifier_skips e message force s H). simpl.
    rewrite time_writes_app. unfold time_writes. simpl.
    repeat split. lia.
Qed.

(** C10: for each status the availability check can return, the text of the
    notification is ASCII, so re-encoding it (UTF-8 bytes read as Latin-1)
    raises nothing and gives the same text, and that text is what the
    notifier hands to [bot.send_message]. *)
Theorem status_text_survives_reencoding
    (e : env) (s s' : state) (status : pystr) :
  check_ticket_availability e s = (Ret status, s') ->
  is_ascii (notification_text status) /\
  (forall s2, reencode (notification_text status) s2 =
                (Ret (notification_text status), s2)) /\
  (forall e2 force s2,
      may_send e2 force (last_time (notification_file s2)) = true ->
      sent_texts (trace (snd (send_telegram_notification e2 status force s2)))
      = sent_texts (trace s2) ++ [notification_text status]).
Proof.
  intros Hc.
  assert (Ha : is_ascii (notification_text status)).
  { destruct (check_total e s) as [st [Hst Hcases]].
    rewrite Hc in Hst. injection Hst as -> _.
    destruct Hcases as [-> | [-> | ->]];
      apply is_ascii_forallb; reflexivity. }
  split; [exact Ha|]. split.
  - intros s2. apply reencode_ascii, Ha.
  - intros e2 force s2 Hm.
    rewrite (notifier_sends e2 status (notification_text status) force s2 Hm
               (utf8_encode_ascii _ Ha)).
    simpl. rewrite !sent_texts_app. simpl.
    destruct (send e2); simpl; rewrite ?app_nil_r; reflexivity.
Qed.

(** * Further properties of the script *)

(** ** The backoff, the exit test and the handlers in closed form *)

Lemma backoff_result (e : env) (status : pystr) (s : state) :
  try_except (backoff_and_sleep e status) (loop_excepts e) s =
    let c := fst (backoff status (consecutive_errors s)) in
    let t := snd (backoff status (consecutive_errors s)) in
    let sc := snd (set_consecutive_errors c s) in
    let ss := snd (emit (Sleep t) sc) in
    if max_consecutive_errors <=? c then (Ret Break, sc)
    else
      match sleep e with
      | Slept => (Ret Continue, ss)
      | SleepRaises KeyboardInterrupt => (Ret Break, ss)
      | SleepRaises CancelledError => (Raise CancelledError, ss)
      | SleepRaises (Exception _) =>
          (match retry_sleep e with
           | Slept => Ret Continue
           | SleepRaises y => Raise y
           end,
           snd (emit (Sleep 60) (snd (set_consecutive_errors (c + 1) ss))))
      end.
Proof.
  unfold backoff, backoff_and_sleep, loop_excepts, try_except, bind,
    asyncio_sleep, bind, get, set_consecutive_errors, emit, ret, raise.
  destruct (str_eqb status ERROR); simpl.
  - destruct (max_consecutive_errors <=? consecutive_errors s + 1);
      [reflexivity|].
    destruct (sleep e) as [|[x| |]]; simpl; try reflexivity.
    destruct (retry_sleep e); reflexivity.
  - destruct (sleep e) as [|[x| |]]; simpl; try reflexivity.
    destruct (retry_sleep e); reflexivity.
Qed.

Lemma iteration_unfold (e : env) (s s1 s2 : state) (status : pystr) :
  check_ticket_availability e s = (Ret status, s1) ->
  compare_and_notify e status s1 = (Ret tt, s2) ->
  iteration e s =
    try_except (backoff_and_sleep e status) (loop_excepts e) s2.
Proof.
  intros Hc Hn. unfold iteration, loop_body.
  rewrite (try_except_bind _ _ _ _ _ _ Hc).
  rewrite (try_except_bind _ _ _ _ _ _ Hn). reflexivity.
Qed.

Lemma check_status (e : env) (s : state) :
  exists st,
    is_status st /\
    check_ticket_availability e s = (Ret st, snd (emit HttpGet s)).
Proof.
  destruct (check_total e s) as [st [H Hs]]. exists st. split; assumption.
Qed.

(** What the comparison leaves behind, whichever branch it takes. *)
Lemma compare_result (e : env) (status : pystr) (s : state) :
  exists s2 evs,
    compare_and_notify e status s = (Ret tt, s2) /\
    last_status s2 = Some status /\
    consecutive_errors s2 = consecutive_errors s /\
    trace s2 =
      trace s ++
      [CallNotify status (negb (status_changed status (last_status s)))] ++
      evs ++
      (if status_changed status (last_status s)
       then [WriteStatus status] else []) /\
    notify_calls evs = [] /\ status_writes evs = [] /\ slept evs = [] /\
    fetches evs = 0%nat.
Proof.
  destruct (status_changed status (last_status s)) eqn:H.
  - destruct (notifier_trace e status false s) as [evs [Ht Hp]].
    rewrite (compare_changed e status s H).
    eexists. exists evs. split; [reflexivity|]. simpl.
    split; [reflexivity|]. split; [reflexivity|].
    split; [|exact Hp].
    rewrite Ht, <- app_assoc. reflexivity.
  - destruct (notifier_trace e status true s) as [evs [Ht Hp]].
    rewrite (compare_unchanged e status s H).
    destruct (notifier_returns e status true s) as [_ [Hl [Hc _]]].
    eexists. exists evs. split; [reflexivity|].
    split.
    { rewrite Hl. unfold status_changed in H.
      destruct (last_status s) as [l|]; [|discriminate].
      apply negb_false_iff, str_eqb_eq in H. rewrite H. reflexivity. }
    split; [exact Hc|]. split; [|exact Hp].
    rewrite Ht, app_nil_r. reflexivity.
Qed.

(** One turn, put together: the check, the comparison, then the closed
    form of the backoff on the state the comparison leaves. *)
Lemma iteration_cases (e : env) (s : state) :
  exists st s2 evs,
    is_status st /\
    check_ticket_availability e s = (Ret st, snd (emit HttpGet s)) /\
    last_status s2 = Some st /\
    consecutive_errors s2 = consecutive_errors s /\
    trace s2 =
      trace s ++ [HttpGet] ++
      [CallNotify st (negb (status_changed st (last_status s)))] ++
      evs ++
      (if status_changed st (last_status s) then [WriteStatus st] else []) /\
    (notify_calls evs = [] /\ status_writes evs = [] /\ slept evs = [] /\
     fetches evs = 0%nat) /\
    iteration e s =
      try_except (backoff_and_sleep e st) (loop_excepts e) s2.
Proof.
  destruct (check_status e s) as [st [Hst Hc]].
  destruct (compare_result e st (snd (emit HttpGet s)))
    as [s2 [evs [Hn [Hl [Hce [Ht Hp]]]]]].
  exists st, s2, evs. simpl in Hce, Ht.
  split; [exact Hst|]. split; [exact Hc|]. split; [exact Hl|].
  split; [exact Hce|]. split; [rewrite Ht, <- app_assoc; reflexivity|].
  split; [exact Hp|]. apply (iteration_unfold e s _ s2 st Hc Hn).
Qed.

(** What the closed form adds to the trace: sleeps only. *)
Lemma backoff_trace (e : env) (status : pystr) (s : state) :
  exists l,
    trace (snd (try_except (backoff_and_sleep e status) (loop_excepts e) s))
      = trace s ++ map Sleep l.
Proof.
  rewrite backoff_result. cbv zeta.
  destruct (max_consecutive_errors <=? _).
  - exists []. simpl. rewrite app_nil_r. reflexivity.
  - destruct (sleep e) as [|[x| |]]; simpl.
    + eexists [_]. reflexivity.
    + eexists [_; _]. rewrite <- app_assoc. reflexivity.
    + eexists [_]. reflexivity.
    + eexists [_]. reflexivity.
Qed.

Lemma sleeps_only (l : list Z) :
  notify_calls (map Sleep l) = [] /\ status_writes (map Sleep l) = [] /\
  sent_texts (map Sleep l) = [] /\ fetches (map Sleep l) = 0%nat /\
  slept (map Sleep l) = l.
Proof.
  induction l as [|n l [H1 [H2 [H3 [H4 H5]]]]]; [repeat split|].
  repeat split; try assumption. simpl. rewrite H5. reflexivity.
Qed.

(** X1: after a turn of the loop the remembered status is the status the
    check of that turn returned, whatever the notifier, the write of the
    status file and the sleep did. *)
Theorem last_status_tracks_check (e : env) (s s1 : state) (status : pystr) :
  check_ticket_availability e s = (Ret status, s1) ->
  last_status (snd (iteration e s)) = Some status.
Proof.
  intros Hc.
  destruct (iteration_cases e s) as [st [s2 [evs [_ [Hc' [Hl [_ [_ [_ Hi]]]]]]]]].
  rewrite Hc in Hc'. injection Hc' as -> _.
  rewrite Hi.
  destruct (backoff_frame e st s2) as [B _]. rewrite B. exact Hl.
Qed.

(** X2: every turn of the loop starts exactly one HTTP GET and calls the
    notifier exactly once, for the status just checked, with [force] true
    exactly when that status equals the remembered one. *)
Theorem one_fetch_one_notifier_call
    (e : env) (s s1 : state) (status : pystr) :
  check_ticket_availability e s = (Ret status, s1) ->
  let s' := snd (iteration e s) in
  fetches (trace s') = (fetches (trace s) + 1)%nat /\
  notify_calls (trace s') =
    notify_calls (trace s) ++
    [(status, negb (status_changed status (last_status s)))].
Proof.
  intros Hc.
  destruct (iteration_cases e s)
    as [st [s2 [evs [_ [Hc' [_ [_ [Ht [[N1 [_ [_ N4]]] Hi]]]]]]]]].
  rewrite Hc in Hc'. injection Hc' as -> _.
  cbv zeta. rewrite Hi.
  destruct (backoff_trace e st s2) as [l Hl]. rewrite Hl, Ht.
  destruct (sleeps_only l) as [L1 [_ [_ [L4 _]]]].
  split.
  - rewrite !fetches_app, N4, L4.
    destruct (status_changed st (last_status s)); unfold fetches; simpl; lia.
  - rewrite !notify_calls_app, N1, L1.
    destruct (status_changed st (last_status s)); simpl;
      rewrite ?app_nil_r; reflexivity.
Qed.

(** X3: a turn whose check returns a status other than "Error" and whose
    sleep is not disturbed sets the error counter to zero, whatever it was,
    sleeps 300 seconds and goes on. *)
Theorem good_turn_resets_counter (e : env) (s s1 : state) (status : pystr) :
  check_ticket_availability e s = (Ret status, s1) ->
  status <> ERROR ->
  sleep e = Slept ->
  let r := iteration e s in
  fst r = Ret Continue /\
  consecutive_errors (snd r) = 0 /\
  slept (trace (snd r)) = slept (trace s) ++ [300].
Proof.
  intros Hc Hne Hs.
  destruct (iteration_cases e s)
    as [st [s2 [evs [_ [Hc' [_ [_ [Ht [[_ [_ [N3 _]]] Hi]]]]]]]]].
  rewrite Hc in Hc'. injection Hc' as -> _.
  cbv zeta. rewrite Hi, backoff_result. unfold backoff.
  destruct (str_eqb st ERROR) eqn:E;
    [apply str_eqb_eq in E; contradiction|].
  simpl. rewrite Hs. simpl. repeat split.
  rewrite Ht, !slept_app, N3.
  destruct (status_changed st (last_status s)); unfold slept; simpl;
    rewrite ?app_nil_r; reflexivity.
Qed.

(** X4: when [KeyboardInterrupt] arrives in the sleep of a turn, the loop
    is left: the interrupt is not counted as an error, and the only sleep
    of the turn is the one that was interrupted (none at all when the turn
    reached the limit of errors first). *)
Theorem keyboard_interrupt_leaves_loop
    (e : env) (s s1 : state) (status : pystr) :
  check_ticket_availability e s = (Ret status, s1) ->
  sleep e = SleepRaises KeyboardInterrupt ->
  let r := iteration e s in
  let c := fst (backoff status (consecutive_errors s)) in
  let t := snd (backoff status (consecutive_errors s)) in
  fst r = Ret Break /\
  consecutive_errors (snd r) = c /\
  slept (trace (snd r)) =
    slept (trace s) ++ (if max_consecutive_errors <=? c then [] else [t]).
Proof.
  intros Hc Hs.
  destruct (iteration_cases e s)
    as [st [s2 [evs [_ [Hc' [_ [Hce [Ht [[_ [_ [N3 _]]] Hi]]]]]]]]].
  rewrite Hc in Hc'. injection Hc' as -> _.
  cbv zeta. rewrite Hi, backoff_result. cbv zeta. rewrite Hce, Hs.
  assert (Hsl : slept (trace s2) = slept (trace s)).
  { rewrite Ht, !slept_app, N3.
    destruct (status_changed st (last_status s)); unfold slept; simpl;
      rewrite ?app_nil_r; reflexivity. }
  destruct (max_consecutive_errors <=? _); simpl.
  - rewrite Hsl, app_nil_r. repeat split.
  - rewrite slept_app, Hsl. repeat split.
Qed.

(** X5: when an exception other than [KeyboardInterrupt] cuts the sleep of
    a turn short and the minute of sleep of the handler passes, the loop
    goes on, the error counter is one above the value the turn gave it, and
    the turn has slept twice: the interrupted sleep, then 60 seconds. *)
Theorem escaped_exception_is_counted
    (e : env) (s s1 : state) (status : pystr) (x : exception) :
  check_ticket_availability e s = (Ret status, s1) ->
  sleep e = SleepRaises (Exception x) ->
  retry_sleep e = Slept ->
  let c := fst (backoff status (consecutive_errors s)) in
  let t := snd (backoff status (consecutive_errors s)) in
  c < max_consecutive_errors ->
  let r := iteration e s in
  fst r = Ret Continue /\
  consecutive_errors (snd r) = c + 1 /\
  slept (trace (snd r)) = slept (trace s) ++ [t; 60].
Proof.
  intros Hc Hs Hr c t Hlt.
  destruct (iteration_cases e s)
    as [st [s2 [evs [_ [Hc' [_ [Hce [Ht [[_ [_ [N3 _]]] Hi]]]]]]]]].
  rewrite Hc in Hc'. injection Hc' as -> _.
  cbv zeta. rewrite Hi, backoff_result. cbv zeta. rewrite Hce, Hs, Hr.
  fold c t.
  assert (Hsl : slept (trace s2) = slept (trace s)).
  { rewrite Ht, !slept_app, N3.
    destruct (status_changed st (last_status s)); unfold slept; simpl;
      rewrite ?app_nil_r; reflexivity. }
  replace (max_consecutive_errors <=? c) with false
    by (symmetry; apply Z.leb_gt; exact Hlt).
  simpl. rewrite !slept_app, Hsl, <- app_assoc. repeat split.
Qed.

Lemma read_last_status_eq (s : state) :
  read_last_status s =
    (Ret match status_file s with
         | Present content => Some (strip content)
         | Absent | Broken => None
         end, s).
Proof.
  unfold read_last_status, try_except, bind, get.
  destruct (status_file s); reflexivity.
Qed.

Lemma main_eq (es : list env) (s : state) :
  main es s =
    while_true es
      (mkState match status_file s with
               | Present content => Some (strip content)
               | Absent | Broken => None
               end
               0 (status_file s) (notification_file s) (trace s)).
Proof.
  unfold main, bind at 1. simpl. unfold bind at 1.
  rewrite read_last_status_eq. simpl. reflexivity.
Qed.

Lemma iteration_raises (e : env) (s : state) (y : exn) :
  fst (iteration e s) = Raise y ->
  (sleep e = SleepRaises y /\ y = CancelledError) \/
  (retry_sleep e = SleepRaises y /\
   exists x, sleep e = SleepRaises (Exception x)).
Proof.
  destruct (iteration_cases e s) as [st [s2 [evs [_ [_ [_ [_ [_ [_ Hi]]]]]]]]].
  rewrite Hi, backoff_result. cbv zeta.
  destruct (max_consecutive_errors <=? _); simpl; [discriminate|].
  destruct (sleep e) as [|[x| |]]; simpl; try discriminate.
  - destruct (retry_sleep e) as [|z]; simpl; [discriminate|].
    intros H. injection H as ->. right.
    split; [reflexivity | exists x; reflexivity].
  - intros H. injection H as <-. left. split; reflexivity.
Qed.

Lemma while_true_raises (es : list env) (s : state) (y : exn) :
  fst (while_true es s) = Raise y ->
  exists e,
    In e es /\
    ((sleep e = SleepRaises y /\ y = CancelledError) \/
     (retry_sleep e = SleepRaises y /\
      exists x, sleep e = SleepRaises (Exception x))).
Proof.
  revert s; induction es as [|e es IH]; intros s; simpl; [discriminate|].
  unfold bind. destruct (iteration e s) as [[[|]|z] s'] eqn:Hi; simpl.
  - intros H. destruct (IH s' H) as [e' [Hin Hr]].
    exists e'. split; [right; exact Hin | exact Hr].
  - discriminate.
  - intros H. injection H as ->.
    exists e. split; [left; reflexivity|].
    apply (iteration_raises e s y). rewrite Hi. reflexivity.
Qed.

(** X6: no failure of the fetch, of the parse, of the bot or of either
    file, each an instance of [Exception], leaves [main]; what leaves it
    was raised by one of the two sleeps of the loop: a cancellation
    ([asyncio.CancelledError], which neither [except] clause of the loop
    catches) raised by the sleep of the turn, or whatever the
    [asyncio.sleep(60)] of the handler raises, in a turn whose sleep was
    cut short by an [Exception]. *)
Theorem main_raises_only_from_the_sleeps
    (es : list env) (s : state) (y : exn) :
  fst (main es s) = Raise y ->
  exists e,
    In e es /\
    ((sleep e = SleepRaises y /\ y = CancelledError) \/
     (retry_sleep e = SleepRaises y /\
      exists x, sleep e = SleepRaises (Exception x))).
Proof. rewrite main_eq. apply while_true_raises. Qed.

(** An invariant of the turns is an invariant of the loop. *)
Lemma while_true_invariant (P : state -> Prop) :
  (forall e s, P s -> P (snd (iteration e s))) ->
  forall es s, P s -> P (snd (while_true es s)).
Proof.
  intros Hstep es. induction es as [|e es IH]; intros s Hs; simpl;
    [exact Hs|].
  unfold bind. pose proof (Hstep e s Hs) as H.
  destruct (iteration e s) as [[[|]|z] s']; simpl in *;
    [apply IH, H | exact H | exact H].
Qed.

Lemma backoff_time_bounds (n : Z) :
  0 <= n -> n + 1 < max_consecutive_errors ->
  In (Z.min (60 * 2 ^ (n + 1)) 3600) [120; 240; 480; 960].
Proof.
  unfold max_consecutive_errors. intros H0 H5.
  assert (n = 0 \/ n = 1 \/ n = 2 \/ n = 3) as [-> | [-> | [-> | ->]]]
    by lia; simpl; tauto.
Qed.

(** X7: from its start on, the script sleeps only 300 seconds (after a
    good check), 120, 240, 480 or 960 seconds (after a failed one) or 60
    seconds (in the handler): the cap of 3600 seconds of the backoff is
    never reached, and the error counter never goes below zero. *)
Theorem sleeps_are_bounded
    (es : list env) (sf : stored pystr) (nf : stored datetime) :
  let s' := snd (main es (boot sf nf)) in
  0 <= consecutive_errors s' /\
  Forall (fun n => In n [60; 120; 240; 300; 480; 960]) (slept (trace s')).
Proof.
  cbv zeta. rewrite main_eq.
  apply (while_true_invariant
           (fun s => 0 <= consecutive_errors s /\
                     Forall (fun n => In n [60; 120; 240; 300; 480; 960])
                            (slept (trace s))));
    [|simpl; split; [lia | constructor]].
  intros e s [H0 Hall].
  destruct (iteration_cases e s)
    as [st [s2 [evs [_ [_ [_ [Hce [Ht [[_ [_ [N3 _]]] Hi]]]]]]]]].
  assert (Hsl : slept (trace s2) = slept (trace s)).
  { rewrite Ht, !slept_app, N3.
    destruct (status_changed st (last_status s)); unfold slept; simpl;
      rewrite ?app_nil_r; reflexivity. }
  rewrite Hi, backoff_result. cbv zeta. rewrite Hce. unfold backoff.
  destruct (str_eqb st ERROR); simpl.
  - destruct (max_consecutive_errors <=? consecutive_errors s + 1) eqn:Hm;
      simpl; [split; [lia | rewrite Hsl; exact Hall]|].
    apply Z.leb_gt in Hm.
    pose proof (backoff_time_bounds (consecutive_errors s) H0 Hm) as Hb.
    destruct (sleep e) as [|[x| |]]; simpl;
      (split; [lia|]); rewrite ?slept_app, Hsl;
      rewrite ?Forall_app; repeat split; try exact Hall;
      (apply Forall_cons; [simpl in Hb |- *; tauto | apply Forall_nil]).
  - destruct (sleep e) as [|[x| |]]; simpl;
      (split; [lia|]); rewrite ?slept_app, Hsl;
      rewrite ?Forall_app; repeat split; try exact Hall;
      (apply Forall_cons; [simpl; tauto | apply Forall_nil]).
Qed.

(** ** The two branches of a turn *)

Lemma check_state (e : env) (s s1 : state) (status : pystr) :
  check_ticket_availability e s = (Ret status, s1) ->
  s1 = snd (emit HttpGet s) /\ is_status status.
Proof.
  intros H. destruct (check_status e s) as [st [Hs Hc]].
  rewrite H in Hc. injection Hc as -> ->. split; [reflexivity | exact Hs].
Qed.

Lemma iteration_changed (e : env) (s s1 : state) (status : pystr) :
  check_ticket_availability e s = (Ret status, s1) ->
  status_changed status (last_status s) = true ->
  let n := snd (send_telegram_notification e status false s1) in
  let s' := snd (iteration e s) in
  status_file s' =
    match status_write e with
    | Written => Present status
    | OpenRaisesIOError => status_file s
    | WriteRaisesIOError => Present []
    end /\
  notification_file s' = notification_file n /\
  exists l, trace s' = trace n ++ [WriteStatus status] ++ map Sleep l.
Proof.
  intros Hc Hch. destruct (check_state e s s1 status Hc) as [-> _].
  cbv zeta.
  assert (Hch' : status_changed status
                   (last_status (snd (emit HttpGet s))) = true) by exact Hch.
  rewrite (iteration_unfold e s _ _ status Hc
             (compare_changed e status _ Hch')).
  match goal with
  | |- context [try_except _ _ ?st] =>
      destruct (backoff_frame e status st) as [_ [B2 [B3 _]]];
      destruct (backoff_trace e status st) as [l Bl]
  end.
  rewrite B2, B3, Bl. simpl.
  split; [reflexivity|]. split; [reflexivity|].
  exists l. rewrite <- app_assoc. reflexivity.
Qed.

Lemma iteration_unchanged (e : env) (s s1 : state) (status : pystr) :
  check_ticket_availability e s = (Ret status, s1) ->
  status_changed status (last_status s) = false ->
  let n := snd (send_telegram_notification e status true s1) in
  let s' := snd (iteration e s) in
  status_file s' = status_file s /\
  notification_file s' = notification_file n /\
  exists l, trace s' = trace n ++ map Sleep l.
Proof.
  intros Hc Hch. destruct (check_state e s s1 status Hc) as [-> _].
  cbv zeta.
  assert (Hch' : status_changed status
                   (last_status (snd (emit HttpGet s))) = false) by exact Hch.
  rewrite (iteration_unfold e s _ _ status Hc
             (compare_unchanged e status _ Hch')).
  match goal with
  | |- context [try_except _ _ ?st] =>
      destruct (backoff_frame e status st) as [_ [B2 [B3 _]]];
      destruct (backoff_trace e status st) as [l Bl]
  end.
  rewrite B2, B3, Bl.
  destruct (notifier_returns e status true (snd (emit HttpGet s)))
    as [_ [_ [_ Hf]]].
  split; [exact Hf|]. split; [reflexivity|]. exists l. reflexivity.
Qed.

Lemma status_text_ascii (status : pystr) :
  is_status status -> is_ascii (notification_text status).
Proof.
  intros [-> | [-> | ->]]; apply is_ascii_forallb; reflexivity.
Qed.

(** ** The status file *)

Lemma lstrip_spaces (pre rest : pystr) :
  Forall (fun c => isspace c = true) pre ->
  lstrip (pre ++ rest) = lstrip rest.
Proof.
  induction 1 as [|c pre Hc _ IH]; simpl; [reflexivity|].
  rewrite Hc. exact IH.
Qed.

Lemma lstrip_keeps (c : N) (rest : pystr) :
  isspace c = false -> lstrip (c :: rest) = c :: rest.
Proof. intros H. simpl. rewrite H. reflexivity. Qed.

(** Whitespace around a text that neither starts nor ends with whitespace
    is what [strip] removes. *)
Lemma strip_padded (pre mid post : pystr) :
  Forall (fun c => isspace c = true) pre ->
  Forall (fun c => isspace c = true) post ->
  isspace (hd 32%N mid) = false ->
  isspace (last mid 32%N) = false ->
  strip (pre ++ mid ++ post) = mid.
Proof.
  intros Hpre Hpost Hhd Hlast. unfold strip.
  rewrite (lstrip_spaces pre _ Hpre).
  destruct mid as [|c mid]; [simpl in Hhd; discriminate|].
  simpl in Hhd. change ((c :: mid) ++ post) with (c :: (mid ++ post)).
  rewrite (lstrip_keeps c _ Hhd).
  change (c :: mid ++ post) with ((c :: mid) ++ post).
  rewrite rev_app_distr.
  rewrite (lstrip_spaces (rev post)) by (apply Forall_rev; exact Hpost).
  destruct (exists_last (l := c :: mid)) as [body [z Hz]]; [discriminate|].
  rewrite Hz in Hlast |- *. rewrite last_last in Hlast.
  rewrite rev_app_distr. cbn [rev app].
  rewrite (lstrip_keeps z _ Hlast).
  change (z :: rev body) with ([z] ++ rev body).
  rewrite rev_app_distr, rev_involutive. reflexivity.
Qed.

Lemma status_has_no_margin (status : pystr) :
  is_status status ->
  isspace (hd 32%N status) = false /\ isspace (last status 32%N) = false.
Proof. intros [-> | [-> | ->]]; split; reflexivity. Qed.

(** X8: a status file that holds one of the three statuses, with any
    whitespace before and after it (a newline at the end, say), is read as
    that status. *)
Theorem status_file_is_read_stripped
    (s : state) (status pre post : pystr) :
  is_status status ->
  Forall (fun c => isspace c = true) pre ->
  Forall (fun c => isspace c = true) post ->
  status_file s = Present (pre ++ status ++ post) ->
  read_last_status s = (Ret (Some status), s).
Proof.
  intros Hst Hpre Hpost Hf.
  destruct (status_has_no_margin status Hst) as [Hh Hl].
  rewrite read_last_status_eq, Hf, (strip_padded pre status post);
    auto.
Qed.

(** X9: after a turn that found a new status and wrote it to the status
    file (the file was opened and the write went through), reading the
    file, as the next start of the script does, gives the status of that
    turn, the same as the one kept in memory. *)
Theorem written_status_is_read_back
    (e : env) (s s1 : state) (status : pystr) :
  check_ticket_availability e s = (Ret status, s1) ->
  status_changed status (last_status s) = true ->
  status_write e = Written ->
  let s' := snd (iteration e s) in
  read_last_status s' = (Ret (last_status s'), s') /\
  last_status s' = Some status.
Proof.
  intros Hc Hch Hw. cbv zeta.
  destruct (check_state e s s1 status Hc) as [_ Hst].
  assert (Hl : last_status (snd (iteration e s)) = Some status).
  { destruct (iteration_cases e s)
      as [st [s2 [evs [_ [Hc' [Hl [_ [_ [_ Hi]]]]]]]]].
    rewrite Hc in Hc'. injection Hc' as -> _. rewrite Hi.
    destruct (backoff_frame e st s2) as [B _]. rewrite B. exact Hl. }
  split; [|exact Hl].
  destruct (iteration_changed e s s1 status Hc Hch) as [Hf _].
  rewrite Hw in Hf. rewrite Hl.
  destruct (status_has_no_margin status Hst) as [Hh Hla].
  pose proof (strip_padded [] status [] (Forall_nil _) (Forall_nil _)
                Hh Hla) as Hs.
  simpl in Hs. rewrite app_nil_r in Hs.
  rewrite read_last_status_eq, Hf, Hs. reflexivity.
Qed.


(** X11: a turn calls [write_current_status] only when the status differs
    from the remembered one, and then once, with the new status; otherwise
    the status file is left as it is. *)
Theorem status_written_only_on_change
    (e : env) (s s1 : state) (status : pystr) :
  check_ticket_availability e s = (Ret status, s1) ->
  let s' := snd (iteration e s) in
  status_writes (trace s') =
    status_writes (trace s) ++
    (if status_changed status (last_status s) then [status] else []) /\
  (status_changed status (last_status s) = false ->
   status_file s' = status_file s).
Proof.
  intros Hc. cbv zeta. split.
  - destruct (iteration_cases e s)
      as [st [s2 [evs [_ [Hc' [_ [_ [Ht2 [[_ [N2 _]] Hi]]]]]]]]].
    rewrite Hc in Hc'. injection Hc' as -> _.
    rewrite Hi. destruct (backoff_trace e st s2) as [l2 Hl2].
    rewrite Hl2, Ht2, !status_writes_app, N2.
    destruct (sleeps_only l2) as [_ [L2 _]]. rewrite L2.
    destruct (status_changed st (last_status s)); unfold status_writes;
      simpl; rewrite ?app_nil_r; reflexivity.
  - intros Hch.
    destruct (iteration_unchanged e s s1 status Hc Hch) as [Hf _].
    exact Hf.
Qed.

(** X12: however long the script runs, its status file holds what it held
    at the start, or one of the three statuses exactly as returned by the
    check, or nothing at all: it is empty after a write that failed once
    the file was open. *)
Theorem status_file_contents
    (es : list env) (sf : stored pystr) (nf : stored datetime) :
  let s' := snd (main es (boot sf nf)) in
  status_file s' = sf \/
  (exists status, is_status status /\ status_file s' = Present status) \/
  status_file s' = Present [].
Proof.
  cbv zeta. rewrite main_eq.
  apply (while_true_invariant
           (fun s => status_file s = sf \/
                     (exists status, is_status status /\
                                     status_file s = Present status) \/
                     status_file s = Present []));
    [|left; reflexivity].
  intros e s Hs.
  destruct (check_status e s) as [st [Hst Hc]].
  destruct (status_changed st (last_status s)) eqn:Hch.
  - destruct (iteration_changed e s _ st Hc Hch) as [Hf _].
    rewrite Hf. destruct (status_write e).
    + right. left. exists st. split; [exact Hst | reflexivity].
    + exact Hs.
    + right. right. reflexivity.
  - destruct (iteration_unchanged e s _ st Hc Hch) as [Hf _].
    rewrite Hf. exact Hs.
Qed.

(** X22: when writing the status file fails once the file is open, in a
    turn that found a new status, the file is left empty while the new
    status is remembered; the next start of the script then reads the
    empty string as its last status. *)
Theorem failed_status_write_empties_the_file
    (e : env) (s s1 : state) (status : pystr) :
  check_ticket_availability e s = (Ret status, s1) ->
  status_changed status (last_status s) = true ->
  status_write e = WriteRaisesIOError ->
  let s' := snd (iteration e s) in
  status_file s' = Present [] /\
  last_status s' = Some status /\
  read_last_status s' = (Ret (Some []), s').
Proof.
  intros Hc Hch Hw. cbv zeta.
  destruct (iteration_changed e s s1 status Hc Hch) as [Hf _].
  rewrite Hw in Hf. split; [exact Hf|]. split.
  - destruct (iteration_cases e s)
      as [st [s2 [evs [_ [Hc' [Hl [_ [_ [_ Hi]]]]]]]]].
    rewrite Hc in Hc'. injection Hc' as -> _. rewrite Hi.
    destruct (backoff_frame e st s2) as [B _]. rewrite B. exact Hl.
  - rewrite read_last_status_eq, Hf. reflexivity.
Qed.

(** ** The notifier and its cooldown *)

(** X13: once a message was delivered and its time stored, a later call
    without [force] that comes at most 30 minutes after the stored time
    sends nothing and changes nothing. *)
Theorem cooldown_after_delivery
    (e1 e2 : env) (m1 m2 text : pystr) (force : bool) (s : state) :
  may_send e1 force (last_time (notification_file s)) = true ->
  utf8_encode (notification_text m1) = Some text ->
  send e1 = Delivered ->
  notification_write e1 = Written ->
  now_check e2 - now_write e1 <= cooldown ->
  let s1 := snd (send_telegram_notification e1 m1 force s) in
  send_telegram_notification e2 m2 false s1 =
    (Ret tt, snd (emit (CallNotify m2 false) s1)).
Proof.
  intros Hm Hu Hs Hw Hc. cbv zeta.
  apply notifier_skips.
  rewrite (notifier_sends e1 m1 text force s Hm Hu), Hs, Hw. simpl.
  apply Z.ltb_ge. exact Hc.
Qed.

(** X14: the notification file changes only in a call in which
    [bot.send_message] was called and returned; it then holds the time
    taken for this delivery when the write went through, and is left empty
    when the write failed once the file was open. *)
Theorem throttle_moves_only_on_delivery
    (e : env) (message : pystr) (force : bool) (s : state) :
  let s' := snd (send_telegram_notification e message force s) in
  notification_file s' <> notification_file s ->
  send e = Delivered /\
  (exists text, sent_texts (trace s') = sent_texts (trace s) ++ [text]) /\
  ((notification_write e = Written /\
    notification_file s' = Present (now_write e)) \/
   (notification_write e = WriteRaisesIOError /\
    notification_file s' = Broken)).
Proof.
  cbv zeta.
  destruct (may_send e force (last_time (notification_file s))) eqn:H.
  - destruct (utf8_encode (notification_text message)) as [text|] eqn:Hu.
    + rewrite (notifier_sends e message text force s H Hu). simpl.
      destruct (send e); [|intros Hn; contradiction].
      assert (Hs : sent_texts
                     (trace s ++
                      CallNotify message force
                      :: [SendMessage text; WriteNotificationTime]) =
                   sent_texts (trace s) ++ [text]).
      { rewrite sent_texts_app. reflexivity. }
      destruct (notification_write e); intros Hn.
      * split; [reflexivity|]. split; [exists text; exact Hs|].
        left. split; reflexivity.
      * contradiction.
      * split; [reflexivity|]. split; [exists text; exact Hs|].
        right. split; reflexivity.
    + rewrite (notifier_cannot_encode e message force s H Hu). simpl.
      intros Hn. contradiction.
  - rewrite (notifier_skips e message force s H). simpl.
    intros Hn. contradiction.
Qed.

(** X15: a delivery that failed does not hold back the next one: when a
    call without [force] passed the cooldown test and the bot raised, a
    later call without [force] reaches the bot again. *)
Theorem failed_delivery_is_retried
    (e1 e2 : env) (m1 m2 text : pystr) (s : state) (x : exception) :
  may_send e1 false (last_time (notification_file s)) = true ->
  send e1 = SendRaises x ->
  now_check e1 <= now_check e2 ->
  utf8_encode (notification_text m2) = Some text ->
  let s1 := snd (send_telegram_notification e1 m1 false s) in
  sent_texts (trace (snd (send_telegram_notification e2 m2 false s1))) =
    sent_texts (trace s1) ++ [text].
Proof.
  intros Hm Hs Ht Hu. cbv zeta.
  set (s1 := snd (send_telegram_notification e1 m1 false s)).
  assert (Hf : notification_file s1 = notification_file s).
  { unfold s1.
    destruct (utf8_encode (notification_text m1)) as [t1|] eqn:Hu1.
    - rewrite (notifier_sends e1 m1 t1 false s Hm Hu1), Hs. reflexivity.
    - rewrite (notifier_cannot_encode e1 m1 false s Hm Hu1). reflexivity. }
  assert (Hm2 : may_send e2 false (last_time (notification_file s1)) = true).
  { rewrite Hf. unfold may_send in *. simpl in *.
    destruct (last_time (notification_file s)) as [[t | t]|];
      [| discriminate | reflexivity].
    apply Z.ltb_lt in Hm. apply Z.ltb_lt. lia. }
  rewrite (notifier_sends e2 m2 text false s1 Hm2 Hu). simpl.
  rewrite !sent_texts_app.
  destruct (send e2); unfold sent_texts; simpl; rewrite ?app_nil_r;
    reflexivity.
Qed.

(** ** The re-encoding of the text *)

Lemma utf8_encode_cp_length (c : N) (bs : list N) :
  utf8_encode_cp c = Some bs ->
  (1 <= List.length bs)%nat /\
  ((128 <= c)%N -> (2 <= List.length bs)%nat) /\
  ((c < 128)%N -> bs = [c]).
Proof.
  unfold utf8_encode_cp.
  destruct (c <? 128)%N eqn:H1.
  { intros H. injection H as <-. apply N.ltb_lt in H1.
    simpl. repeat split; lia. }
  apply N.ltb_ge in H1.
  destruct (c <? 2048)%N.
  { intros H. injection H as <-. simpl. repeat split; lia. }
  destruct (c <? 65536)%N.
  { destruct ((55296 <=? c) && (c <=? 57343))%N; [discriminate|].
    intros H. injection H as <-. simpl. repeat split; lia. }
  destruct (c <? 1114112)%N; [|discriminate].
  intros H. injection H as <-. simpl. repeat split; lia.
Qed.

Lemma utf8_encode_length (s : pystr) (bs : list N) :
  utf8_encode s = Some bs -> (List.length s <= List.length bs)%nat.
Proof.
  revert bs; induction s as [|c s IH]; intros bs; simpl.
  - intros H. injection H as <-. simpl. lia.
  - destruct (utf8_encode_cp c) as [b|] eqn:Hc; [|discriminate].
    destruct (utf8_encode s) as [rest|]; [|discriminate].
    intros H. injection H as <-.
    destruct (utf8_encode_cp_length c b Hc) as [H1 _].
    specialize (IH rest eq_refl). rewrite length_app. lia.
Qed.

(** X16: the re-encoding of the text before it is sent (UTF-8 bytes read
    as Latin-1) gives the text back exactly when the text is ASCII: any
    other text reaches the bot changed, and never shorter. *)
Theorem reencoding_keeps_only_ascii (text bs : pystr) :
  utf8_encode text = Some bs ->
  (latin1_decode bs = text <-> is_ascii text) /\
  (List.length text <= List.length (latin1_decode bs))%nat.
Proof.
  intros H. split; [|apply utf8_encode_length, H].
  split.
  - unfold latin1_decode. revert bs H.
    induction text as [|c text IH]; intros bs H Heq; [constructor|].
    simpl in H.
    destruct (utf8_encode_cp c) as [b|] eqn:Hc; [|discriminate].
    destruct (utf8_encode text) as [rest|] eqn:Hr; [|discriminate].
    injection H as <-.
    destruct (utf8_encode_cp_length c b Hc) as [_ [H2 H1]].
    pose proof (utf8_encode_length text rest Hr) as Hlen.
    destruct (N.lt_ge_cases c 128) as [Hlt | Hge].
    + rewrite (H1 Hlt) in Heq. simpl in Heq. injection Heq as Heq.
      constructor; [exact Hlt | apply (IH rest eq_refl Heq)].
    + specialize (H2 Hge).
      apply (f_equal (@List.length N)) in Heq.
      rewrite length_app in Heq. simpl in Heq. lia.
  - intros Ha. rewrite (utf8_encode_ascii text Ha) in H.
    injection H as <-. reflexivity.
Qed.

Lemma utf8_encode_cp_none (c : N) :
  encodable c = false -> utf8_encode_cp c = None.
Proof.
  unfold encodable, utf8_encode_cp. intros H.
  apply orb_false_iff in H. destruct H as [H1 H2].
  apply N.ltb_ge in H1.
  replace (c <? 128)%N with false by (symmetry; apply N.ltb_ge; lia).
  replace (c <? 2048)%N with false by (symmetry; apply N.ltb_ge; lia).
  destruct (c <? 65536)%N eqn:H3.
  - apply N.ltb_lt in H3.
    replace ((55296 <=? c) && (c <=? 57343))%N with true; [reflexivity|].
    symmetry. apply andb_true_iff. split; [apply N.leb_le; lia|].
    apply N.leb_le. apply andb_false_iff in H2.
    destruct H2 as [H2 | H2]; apply N.ltb_ge in H2; lia.
  - apply N.ltb_ge in H3. apply andb_false_iff in H2.
    destruct H2 as [H2 | H2]; apply N.ltb_ge in H2; [lia|].
    replace (c <? 1114112)%N with false by (symmetry; apply N.ltb_ge; lia).
    reflexivity.
Qed.

Lemma utf8_encode_none (s : pystr) (c : N) :
  In c s -> encodable c = false -> utf8_encode s = None.
Proof.
  induction s as [|d s IH]; intros Hin Hc; [contradiction|].
  simpl. destruct Hin as [-> | Hin].
  - rewrite (utf8_encode_cp_none c Hc). reflexivity.
  - rewrite (IH Hin Hc). destruct (utf8_encode_cp d); reflexivity.
Qed.

Lemma ascii_is_encodable (s : pystr) (c : N) :
  is_ascii s -> In c s -> encodable c = true.
Proof.
  intros Ha Hin. unfold is_ascii in Ha. rewrite Forall_forall in Ha.
  specialize (Ha c Hin). unfold encodable.
  apply orb_true_iff. left. apply N.ltb_lt. lia.
Qed.

(** X17: a message that holds a code point UTF-8 cannot encode (a lone
    surrogate) is dropped without a trace: nothing is sent, nothing is
    stored and nothing is raised, even with [force]. *)
Theorem unencodable_message_is_dropped
    (e : env) (message : pystr) (force : bool) (s : state) (c : N) :
  In c message ->
  encodable c = false ->
  send_telegram_notification e message force s =
    (Ret tt, snd (emit (CallNotify message force) s)).
Proof.
  intros Hin Hc.
  assert (Hu : utf8_encode (notification_text message) = None).
  { unfold notification_text.
    destruct (str_eqb message AVAILABLE) eqn:E1.
    { apply str_eqb_eq in E1. subst message.
      rewrite (ascii_is_encodable AVAILABLE c) in Hc;
        [discriminate | apply is_ascii_forallb; reflexivity | exact Hin]. }
    destruct (str_eqb message NOT_AVAILABLE) eqn:E2.
    { apply str_eqb_eq in E2. subst message.
      rewrite (ascii_is_encodable NOT_AVAILABLE c) in Hc;
        [discriminate | apply is_ascii_forallb; reflexivity | exact Hin]. }
    apply (utf8_encode_none _ c); [|exact Hc].
    apply in_or_app. right. exact Hin. }
  destruct (may_send e force (last_time (notification_file s))) eqn:H.
  - apply notifier_cannot_encode; assumption.
  - apply notifier_skips; assumption.
Qed.

(** ** Notifications of a turn *)

(** X18: in a turn whose status equals the remembered one the text of that
    status is handed to the bot whatever the stored notification time is,
    so once per poll; when the bot delivers it and the time is written to
    the notification file (the file was opened and the write went
    through), the stored time becomes the time of this delivery. *)
Theorem unchanged_status_always_sends
    (e : env) (s s1 : state) (status : pystr) :
  check_ticket_availability e s = (Ret status, s1) ->
  status_changed status (last_status s) = false ->
  let s' := snd (iteration e s) in
  sent_texts (trace s') = sent_texts (trace s) ++ [notification_text status]
  /\
  (send e = Delivered -> notification_write e = Written ->
   notification_file s' = Present (now_write e)).
Proof.
  intros Hc Hch. cbv zeta.
  destruct (check_state e s s1 status Hc) as [-> Hst].
  destruct (iteration_unchanged e s _ status Hc Hch) as [_ [Hn [l Ht]]].
  pose proof (utf8_encode_ascii _ (status_text_ascii status Hst)) as Hu.
  assert (Hm : may_send e true
                 (last_time (notification_file (snd (emit HttpGet s)))) = true)
    by reflexivity.
  rewrite (notifier_sends e status _ true _ Hm Hu) in Hn, Ht.
  simpl in Hn, Ht. split.
  - rewrite Ht, !sent_texts_app.
    destruct (sleeps_only l) as [_ [_ [L3 _]]]. rewrite L3.
    destruct (send e); unfold sent_texts; simpl; rewrite ?app_nil_r;
      reflexivity.
  - intros Hs Hw. rewrite Hn, Hs, Hw. reflexivity.
Qed.

(** X19: in a turn that finds a new status at most 30 minutes after the
    stored notification time nothing is sent and the stored time stays,
    while the new status is remembered: the change itself is not
    announced by this turn. *)
Theorem change_within_cooldown_is_silent
    (e : env) (s s1 : state) (status : pystr) (t : Z) :
  check_ticket_availability e s = (Ret status, s1) ->
  status_changed status (last_status s) = true ->
  notification_file s = Present t ->
  now_check e - t <= cooldown ->
  let s' := snd (iteration e s) in
  sent_texts (trace s') = sent_texts (trace s) /\
  notification_file s' = Present t /\
  last_status s' = Some status.
Proof.
  intros Hc Hch Hf Ht. cbv zeta.
  destruct (check_state e s s1 status Hc) as [-> Hst].
  destruct (iteration_changed e s _ status Hc Hch) as [_ [Hn [l Htr]]].
  assert (Hm : may_send e false
                 (last_time (notification_file (snd (emit HttpGet s)))) =
               false).
  { simpl. rewrite Hf. simpl. apply Z.ltb_ge. exact Ht. }
  rewrite (notifier_skips e status false _ Hm) in Hn, Htr.
  simpl in Hn, Htr.
  change (WriteStatus status :: map Sleep l)
    with ([WriteStatus status] ++ map Sleep l) in Htr.
  split; [|split].
  - rewrite Htr, !sent_texts_app.
    destruct (sleeps_only l) as [_ [_ [L3 _]]]. rewrite L3.
    unfold sent_texts. simpl. rewrite ?app_nil_r. reflexivity.
  - rewrite Hn. exact Hf.
  - destruct (iteration_cases e s)
      as [st [s2 [evs [_ [Hc' [Hl [_ [_ [_ Hi]]]]]]]]].
    rewrite Hc in Hc'. injection Hc' as ->. rewrite Hi.
    destruct (backoff_frame e st s2) as [B _]. rewrite B. exact Hl.
Qed.

Lemma while_true_one (e : env) (s : state) :
  snd (while_true [e] s) = snd (iteration e s).
Proof.
  simpl. unfold bind. destruct (iteration e s) as [[[|]|x] s']; reflexivity.
Qed.

(** X20: the first turn of a script started without either file, in a
    world where the bot and both files work: whatever the status, its
    notification is sent (without [force]), the status file then holds the
    status and the notification file the time of the delivery. *)
Theorem first_turn_of_first_run (e : env) (s1 : state) (status : pystr) :
  check_ticket_availability e (boot Absent Absent) = (Ret status, s1) ->
  send e = Delivered ->
  notification_write e = Written ->
  status_write e = Written ->
  let s' := snd (main [e] (boot Absent Absent)) in
  notify_calls (trace s') = [(status, false)] /\
  sent_texts (trace s') = [notification_text status] /\
  status_file s' = Present status /\
  notification_file s' = Present (now_write e).
Proof.
  intros Hc Hs Hn Hw. cbv zeta.
  assert (Hb : main [e] (boot Absent Absent) =
               while_true [e] (boot Absent Absent))
    by (rewrite main_eq; reflexivity).
  rewrite Hb, while_true_one.
  destruct (check_state _ _ s1 status Hc) as [-> Hst].
  assert (Hch : status_changed status (last_status (boot Absent Absent))
                = true) by reflexivity.
  destruct (iteration_changed _ _ _ status Hc Hch) as [Hf [Hnf [l Ht]]].
  set (s' := snd (iteration e (boot Absent Absent))) in *.
  pose proof (utf8_encode_ascii _ (status_text_ascii status Hst)) as Hu.
  assert (Hm : may_send e false
                 (last_time (notification_file
                    (snd (emit HttpGet (boot Absent Absent))))) = true)
    by reflexivity.
  rewrite (notifier_sends e status _ false _ Hm Hu) in Hnf, Ht.
  rewrite Hs, Hn in Hnf. rewrite Hs in Ht. rewrite Hw in Hf.
  simpl in Hnf, Ht.
  change (WriteStatus status :: map Sleep l)
    with ([WriteStatus status] ++ map Sleep l) in Ht.
  destruct (sleeps_only l) as [L1 [_ [L3 _]]].
  split; [|split; [|split]].
  - rewrite Ht. unfold notify_calls in *. simpl. rewrite L1. reflexivity.
  - rewrite Ht. unfold sent_texts in *. simpl. rewrite L3. reflexivity.
  - exact Hf.
  - exact Hnf.
Qed.

(** ** Keywords in ASCII pages *)

Lemma keywords_are_ascii (keyword : pystr) :
  In keyword ticket_keywords -> is_ascii keyword.
Proof.
  intros [<- | [<- | [<- | []]]]; apply is_ascii_forallb; reflexivity.
Qed.

(** X21: for a fetched page whose text is ASCII, the check returns "Tickets
    Potentially Available" exactly when some stretch of the text, wherever
    it stands (inside a longer word too), is one of the three keywords up
    to the case of its letters. *)
Theorem ascii_page_matches_keyword_anywhere
    (e : env) (s : state) (code : Z) (text : pystr) :
  page e = Response code (Parsed text) ->
  code < 400 \/ 600 <= code ->
  is_ascii text ->
  (fst (check_ticket_availability e s) = Ret AVAILABLE <->
   exists pre mid post keyword,
     text = pre ++ mid ++ post /\
     In keyword ticket_keywords /\
     lower_ascii mid = lower_ascii keyword).
Proof.
  intros Hp Hc Ha. rewrite (check_fetched e s code text Hp Hc). simpl.
  assert (Hi : availability_indicators text = true <->
               exists pre mid post keyword,
                 text = pre ++ mid ++ post /\
                 In keyword ticket_keywords /\
                 lower_ascii mid = lower_ascii keyword).
  { unfold availability_indicators. rewrite existsb_exists. split.
    - intros [keyword [Hin Hs]]. apply str_in_iff in Hs.
      destruct Hs as [pre' [post' Hs]].
      rewrite (str_lower_ascii text Ha),
        (str_lower_ascii keyword (keywords_are_ascii keyword Hin)) in Hs.
      unfold lower_ascii in Hs at 1.
      apply map_eq_app in Hs. destruct Hs as [pre [rest [-> [Hpre Hs]]]].
      apply map_eq_app in Hs. destruct Hs as [mid [post [-> [Hmid Hpost]]]].
      exists pre, mid, post, keyword. repeat split; assumption.
    - intros [pre [mid [post [keyword [-> [Hin Hm]]]]]].
      exists keyword. split; [exact Hin|]. apply str_in_iff.
      rewrite (str_lower_ascii _ Ha),
        (str_lower_ascii keyword (keywords_are_ascii keyword Hin)).
      exists (lower_ascii pre), (lower_ascii post).
      unfold lower_ascii in *. rewrite !map_app, Hm. reflexivity. }
  rewrite <- Hi.
  destruct (availability_indicators text); split; intros H;
    try reflexivity; discriminate.
Qed.

End Scraper.

(** ** The script with ASCII lowering *)

(** ASCII lowering meets the assumption made of [str.lower]. *)
Lemma lower_ascii_on_ascii (s : pystr) :
  is_ascii s -> lower_ascii s = lower_ascii s.
Proof. reflexivity. Qed.

(** A page that spells two keywords in mixed case. *)
Lemma classification_by_keywords_witness :
  fst (check_ticket_availability lower_ascii
         (calm (lit "Buy Tickets for the new year party") 0)
         (boot Absent Absent)) = Ret AVAILABLE.
Proof.
  apply (classification_by_keywords lower_ascii lower_ascii_on_ascii
           (calm (lit "Buy Tickets for the new year party") 0)
           (boot Absent Absent) 200 _ eq_refl).
  - left. lia.
  - left. exists (lit "buy tickets for the "), (lit " party"). reflexivity.
Defined.

(** A response with status 300 is not followed and not an error for
    [raise_for_status]: its text is classified. *)
Lemma unfollowed_redirect_is_classified :
  ~ (forall (e : env) (s : state) (code : Z) (soup : parse_outcome),
       page e = Response code soup ->
       code < 200 \/ 300 <= code ->
       fst (check_ticket_availability lower_ascii e s) = Ret ERROR).
Proof.
  intros H.
  specialize (H (mkEnv (Response 300 (Parsed [])) 0 Delivered 0 Written
                       Written Slept Slept)
                (boot Absent Absent) 300 (Parsed []) eq_refl).
  assert (Hc : 300 < 200 \/ 300 <= 300) by lia.
  specialize (H Hc). vm_compute in H. discriminate.
Qed.

(** A fetch that times out. *)
Lemma fetch_failure_is_error_witness :
  check_ticket_availability lower_ascii (down 0) (boot Absent Absent) =
    (Ret ERROR, snd (emit HttpGet (boot Absent Absent))).
Proof.
  destruct (fetch_failure_is_error lower_ascii (down 0)
              (boot Absent Absent)) as [H _].
  apply H. left. exists RequestTimeout. reflexivity.
Defined.

(** A call without [force], 31 minutes after the stored time. *)
Lemma notifier_eligibility_witness :
  sent_texts (trace (snd (send_telegram_notification (calm [] (minutes 31))
                            ERROR false (boot Absent (Present 0))))) =
  [lit " Status: Error"].
Proof.
  apply (notifier_eligibility (calm [] (minutes 31)) ERROR
           (lit " Status: Error") false (boot Absent (Present 0)) eq_refl).
  right. right. exists 0. split; [reflexivity | vm_compute; reflexivity].
Defined.

(** The same call when the bot raises. *)
Lemma failed_delivery_keeps_throttle_witness :
  notification_file
    (snd (send_telegram_notification
            (mkEnv (Response 200 (Parsed [])) (minutes 31)
                   (SendRaises TelegramError) (minutes 31) Written Written
                   Slept Slept)
            ERROR false (boot Absent (Present 0)))) = Present 0.
Proof.
  apply (failed_delivery_keeps_throttle
           (mkEnv (Response 200 (Parsed [])) (minutes 31)
                  (SendRaises TelegramError) (minutes 31) Written Written
                  Slept Slept)
           ERROR false (boot Absent (Present 0)) TelegramError eq_refl).
Defined.

(** The text sent for "Error". *)
Lemma status_text_survives_reencoding_witness :
  is_ascii (notification_text ERROR).
Proof.
  apply (status_text_survives_reencoding lower_ascii (down 0)
           (boot Absent Absent) (snd (emit HttpGet (boot Absent Absent)))
           ERROR eq_refl).
Defined.

(** A start with an unreadable status file. *)
Lemma missing_status_file_is_first_run_witness :
  fst (main lower_ascii [calm [] 0] (boot Broken Absent)) =
  fst (main lower_ascii [calm [] 0] (boot Absent Absent)).
Proof.
  apply (missing_status_file_is_first_run lower_ascii Broken Absent
           [calm [] 0]).
  right. reflexivity.
Defined.

(** C1: the status is unchanged ("Tickets Not Available" before and now) and
    the last notification is five minutes old, yet the forced call of the
    turn reaches [bot.send_message] and the stored time is replaced: the
    30 minutes named at the call are not observed. *)
Theorem forced_heartbeat_ignores_cooldown :
  let s := mkState (Some NOT_AVAILABLE) 0 (Present NOT_AVAILABLE)
                   (Present 0) [] in
  let e := calm [] (minutes 5) in
  let s' := snd (iteration lower_ascii e s) in
  now_check e - 0 < cooldown /\
  notify_calls (trace s') = [(NOT_AVAILABLE, true)] /\
  sent_texts (trace s') = [lit "Tickets are currently not available."] /\
  notification_file s' = Present (minutes 5).
Proof. vm_compute. repeat split. Qed.

(** Five failed checks in a row: four sleeps, and none of 1920 seconds. *)
Lemma fifth_error_does_not_sleep :
  let r := while_true lower_ascii [down 0; down 0; down 0; down 0; down 0]
             (boot Absent Absent) in
  fst r = Ret Break /\
  slept (trace (snd r)) = [120; 240; 480; 960] /\
  slept (trace (snd r)) <>
    map (fun k => Z.min (60 * 2 ^ k) 3600) [1; 2; 3; 4; 5].
Proof. vm_compute. repeat split. discriminate. Qed.

(** Five timeouts from a fresh start. *)
Lemma error_backoff_witness :
  fst (while_true lower_ascii [down 0; down 1; down 2; down 3; down 4]
         (boot Absent Absent)) = Ret Break.
Proof.
  assert (Hall : Forall (fun e => fetch_fails (page e) = true /\
                                  sleep e = Slept)
                        [down 0; down 1; down 2; down 3; down 4])
    by (repeat constructor).
  destruct (error_backoff lower_ascii
              [down 0; down 1; down 2; down 3; down 4]
              (boot Absent Absent) eq_refl Hall eq_refl) as [H _].
  exact H.
Defined.

(** C4: after three failed checks, a fourth failed check brings the counter
    to four and its sleep raises; the handler brings the counter to five,
    sleeps a minute and the loop goes on: a fifth fetch is started. *)
Theorem handler_count_does_not_exit :
  let es := [down 0; down 0; down 0; stormy 0] in
  let r := while_true lower_ascii es (boot Absent Absent) in
  let r' := while_true lower_ascii (es ++ [down 0]) (boot Absent Absent) in
  fst r = Ret Continue /\
  consecutive_errors (snd r) = 5 /\
  fetches (trace (snd r)) = 4%nat /\
  fetches (trace (snd r')) = 5%nat.
Proof. vm_compute. repeat split. Qed.

(** "Buy ticket" appears on the page after "Tickets Not Available". *)
Lemma transition_to_available_witness :
  last_status
    (snd (iteration lower_ascii (calm (lit "Buy ticket") 0)
            (mkState (Some NOT_AVAILABLE) 0 (Present NOT_AVAILABLE)
                     Absent []))) = Some AVAILABLE.
Proof.
  assert (Hc : fst (check_ticket_availability lower_ascii
                      (calm (lit "Buy ticket") 0)
                      (mkState (Some NOT_AVAILABLE) 0
                               (Present NOT_AVAILABLE) Absent [])) =
               Ret AVAILABLE) by (vm_compute; reflexivity).
  destruct (transition_to_available lower_ascii (calm (lit "Buy ticket") 0)
              (mkState (Some NOT_AVAILABLE) 0 (Present NOT_AVAILABLE)
                       Absent [])
              eq_refl Hc) as [evs [_ [_ [_ [_ H]]]]].
  exact H.
Defined.

(** ** Further properties at sample worlds *)

(** A timed-out check is what the turn remembers. *)
Lemma last_status_tracks_check_witness :
  last_status (snd (iteration lower_ascii (down 0) (boot Absent Absent))) =
  Some ERROR.
Proof.
  assert (Hc : check_ticket_availability lower_ascii (down 0)
                 (boot Absent Absent) =
               (Ret ERROR, snd (emit HttpGet (boot Absent Absent))))
    by (vm_compute; reflexivity).
  exact (last_status_tracks_check lower_ascii (down 0) (boot Absent Absent)
           _ ERROR Hc).
Defined.

(** One fetch in the first turn of a fresh start. *)
Lemma one_fetch_one_notifier_call_witness :
  fetches (trace (snd (iteration lower_ascii (down 0)
                         (boot Absent Absent)))) = 1%nat.
Proof.
  assert (Hc : check_ticket_availability lower_ascii (down 0)
                 (boot Absent Absent) =
               (Ret ERROR, snd (emit HttpGet (boot Absent Absent))))
    by (vm_compute; reflexivity).
  destruct (one_fetch_one_notifier_call lower_ascii (down 0)
              (boot Absent Absent) _ ERROR Hc) as [H _].
  exact H.
Defined.

(** A good check after seven counted errors. *)
Lemma good_turn_resets_counter_witness :
  consecutive_errors
    (snd (iteration lower_ascii (calm [] 0)
            (mkState (Some ERROR) 7 (Present ERROR) Absent []))) = 0.
Proof.
  assert (Hc : check_ticket_availability lower_ascii (calm [] 0)
                 (mkState (Some ERROR) 7 (Present ERROR) Absent []) =
               (Ret NOT_AVAILABLE,
                snd (emit HttpGet
                       (mkState (Some ERROR) 7 (Present ERROR) Absent []))))
    by (vm_compute; reflexivity).
  assert (Hne : NOT_AVAILABLE <> ERROR) by discriminate.
  destruct (good_turn_resets_counter lower_ascii (calm [] 0)
              (mkState (Some ERROR) 7 (Present ERROR) Absent [])
              _ NOT_AVAILABLE Hc Hne eq_refl) as [_ [H _]].
  exact H.
Defined.

(** Ctrl-C in the sleep after a good check. *)
Lemma keyboard_interrupt_leaves_loop_witness :
  fst (iteration lower_ascii
         (mkEnv (Response 200 (Parsed [])) 0 Delivered 0 Written Written
                (SleepRaises KeyboardInterrupt) Slept)
         (boot Absent Absent)) = Ret Break.
Proof.
  assert (Hc : check_ticket_availability lower_ascii
                 (mkEnv (Response 200 (Parsed [])) 0 Delivered 0 Written
                        Written (SleepRaises KeyboardInterrupt) Slept)
                 (boot Absent Absent) =
               (Ret NOT_AVAILABLE, snd (emit HttpGet (boot Absent Absent))))
    by (vm_compute; reflexivity).
  destruct (keyboard_interrupt_leaves_loop lower_ascii _ _ _ _ Hc eq_refl)
    as [H _].
  exact H.
Defined.

(** A failed check whose sleep is cut short: counted twice. *)
Lemma escaped_exception_is_counted_witness :
  consecutive_errors
    (snd (iteration lower_ascii (stormy 0) (boot Absent Absent))) = 2.
Proof.
  assert (Hc : check_ticket_availability lower_ascii (stormy 0)
                 (boot Absent Absent) =
               (Ret ERROR, snd (emit HttpGet (boot Absent Absent))))
    by (vm_compute; reflexivity).
  assert (Hlt : fst (backoff ERROR (consecutive_errors (boot Absent Absent)))
                < max_consecutive_errors) by (vm_compute; reflexivity).
  destruct (escaped_exception_is_counted lower_ascii (stormy 0)
              (boot Absent Absent) _ ERROR OtherException Hc eq_refl eq_refl
              Hlt) as [_ [H _]].
  exact H.
Defined.

(** Ctrl-C under [asyncio.run]: the sleep of the first turn is cancelled
    and the cancellation leaves [main]. *)
Lemma main_raises_only_from_the_sleeps_witness :
  exists e,
    In e [mkEnv (Response 200 (Parsed [])) 0 Delivered 0 Written Written
                (SleepRaises CancelledError) Slept] /\
    sleep e = SleepRaises CancelledError.
Proof.
  assert (Hr : fst (main lower_ascii
                      [mkEnv (Response 200 (Parsed [])) 0 Delivered 0
                             Written Written
                             (SleepRaises CancelledError) Slept]
                      (boot Absent Absent)) = Raise CancelledError)
    by (vm_compute; reflexivity).
  destruct (main_raises_only_from_the_sleeps lower_ascii _ _ _ Hr)
    as [e [Hin [[Hs _] | [_ [x Hs]]]]].
  - exists e. split; assumption.
  - exfalso. destruct Hin as [<- | []]. discriminate.
Defined.

(** A status file that ends with a newline. *)
Lemma status_file_is_read_stripped_witness :
  read_last_status (boot (Present (ERROR ++ [10%N])) Absent) =
  (Ret (Some ERROR), boot (Present (ERROR ++ [10%N])) Absent).
Proof.
  assert (Hst : is_status ERROR) by (right; right; reflexivity).
  assert (Hpost : Forall (fun c => isspace c = true) [10%N])
    by (repeat constructor).
  exact (status_file_is_read_stripped
           (boot (Present (ERROR ++ [10%N])) Absent) ERROR [] [10%N]
           Hst (Forall_nil _) Hpost eq_refl).
Defined.

(** The first timed-out check of a fresh start is written and read back. *)
Lemma written_status_is_read_back_witness :
  last_status (snd (iteration lower_ascii (down 0) (boot Absent Absent))) =
  Some ERROR.
Proof.
  assert (Hc : check_ticket_availability lower_ascii (down 0)
                 (boot Absent Absent) =
               (Ret ERROR, snd (emit HttpGet (boot Absent Absent))))
    by (vm_compute; reflexivity).
  destruct (written_status_is_read_back lower_ascii (down 0)
              (boot Absent Absent) _ ERROR Hc eq_refl eq_refl) as [_ H].
  exact H.
Defined.


(** A second timed-out check in a row writes nothing. *)
Lemma status_written_only_on_change_witness :
  status_writes
    (trace (snd (iteration lower_ascii (down 0)
                   (mkState (Some ERROR) 1 (Present ERROR) (Present 0) []))))
  = [].
Proof.
  assert (Hc : check_ticket_availability lower_ascii (down 0)
                 (mkState (Some ERROR) 1 (Present ERROR) (Present 0) []) =
               (Ret ERROR,
                snd (emit HttpGet
                       (mkState (Some ERROR) 1 (Present ERROR) (Present 0)
                                []))))
    by (vm_compute; reflexivity).
  destruct (status_written_only_on_change lower_ascii (down 0)
              (mkState (Some ERROR) 1 (Present ERROR) (Present 0) [])
              _ ERROR Hc) as [H _].
  exact H.
Defined.

(** A delivery at minute 0, then a call without [force] at minute 10. *)
Lemma cooldown_after_delivery_witness :
  sent_texts
    (trace (snd (send_telegram_notification (calm [] (minutes 10)) AVAILABLE
                   false
                   (snd (send_telegram_notification (calm [] 0) ERROR false
                           (boot Absent Absent)))))) =
  [lit " Status: Error"].
Proof.
  assert (Hc : now_check (calm [] (minutes 10)) - now_write (calm [] 0)
               <= cooldown) by (vm_compute; discriminate).
  rewrite (cooldown_after_delivery (calm [] 0) (calm [] (minutes 10)) ERROR
             AVAILABLE (lit " Status: Error") false (boot Absent Absent)
             eq_refl eq_refl eq_refl eq_refl Hc).
  reflexivity.
Defined.

(** A delivery on a fresh start moves the stored time. *)
Lemma throttle_moves_only_on_delivery_witness :
  notification_file
    (snd (send_telegram_notification (calm [] (minutes 3)) ERROR false
            (boot Absent Absent))) = Present (minutes 3).
Proof.
  assert (Hn : notification_file
                 (snd (send_telegram_notification (calm [] (minutes 3))
                         ERROR false (boot Absent Absent))) <>
               notification_file (boot Absent Absent))
    by (vm_compute; discriminate).
  destruct (throttle_moves_only_on_delivery (calm [] (minutes 3)) ERROR
              false (boot Absent Absent) Hn) as [_ [_ [[_ H] | [Hw _]]]].
  - exact H.
  - discriminate.
Defined.

(** The bot raises at minute 40; the call at minute 45 tries again. *)
Lemma failed_delivery_is_retried_witness :
  sent_texts
    (trace (snd (send_telegram_notification (calm [] (minutes 45)) ERROR
                   false
                   (snd (send_telegram_notification
                           (mkEnv (Response 200 (Parsed [])) (minutes 40)
                                  (SendRaises TelegramError) (minutes 40)
                                  Written Written Slept Slept)
                           ERROR false (boot Absent (Present 0))))))) =
  [lit " Status: Error"; lit " Status: Error"].
Proof.
  assert (Ht : now_check (mkEnv (Response 200 (Parsed [])) (minutes 40)
                                (SendRaises TelegramError) (minutes 40)
                                Written Written Slept Slept)
               <= now_check (calm [] (minutes 45)))
    by (vm_compute; discriminate).
  rewrite (failed_delivery_is_retried
             (mkEnv (Response 200 (Parsed [])) (minutes 40)
                    (SendRaises TelegramError) (minutes 40)
                    Written Written Slept Slept)
             (calm [] (minutes 45)) ERROR ERROR (lit " Status: Error")
             (boot Absent (Present 0)) TelegramError
             eq_refl eq_refl Ht eq_refl).
  reflexivity.
Defined.

(** The text "é": two bytes, read back as two characters. *)
Lemma reencoding_keeps_only_ascii_witness :
  ~ is_ascii [233%N] /\ latin1_decode [195%N; 169%N] <> [233%N].
Proof.
  destruct (reencoding_keeps_only_ascii [233%N] [195%N; 169%N] eq_refl)
    as [[H1 H2] _].
  assert (Hn : ~ is_ascii [233%N]).
  { intros Ha. inversion Ha as [|c l Hc _]. vm_compute in Hc. discriminate. }
  split; [exact Hn | intros H; apply Hn, H1, H].
Defined.

(** A message with a lone surrogate, sent with [force]. *)
Lemma unencodable_message_is_dropped_witness :
  sent_texts
    (trace (snd (send_telegram_notification (calm [] 0) [55296%N] true
                   (boot Absent Absent)))) = [].
Proof.
  rewrite (unencodable_message_is_dropped (calm [] 0) [55296%N] true
             (boot Absent Absent) 55296%N (or_introl eq_refl) eq_refl).
  reflexivity.
Defined.

(** "Tickets Not Available" again, five minutes after the last message. *)
Lemma unchanged_status_always_sends_witness :
  sent_texts
    (trace (snd (iteration lower_ascii (calm [] (minutes 5))
                   (mkState (Some NOT_AVAILABLE) 0 (Present NOT_AVAILABLE)
                            (Present 0) [])))) =
  [notification_text NOT_AVAILABLE].
Proof.
  assert (Hc : check_ticket_availability lower_ascii (calm [] (minutes 5))
                 (mkState (Some NOT_AVAILABLE) 0 (Present NOT_AVAILABLE)
                          (Present 0) []) =
               (Ret NOT_AVAILABLE,
                snd (emit HttpGet
                       (mkState (Some NOT_AVAILABLE) 0
                                (Present NOT_AVAILABLE) (Present 0) []))))
    by (vm_compute; reflexivity).
  destruct (unchanged_status_always_sends lower_ascii _ _ _ NOT_AVAILABLE
              Hc eq_refl) as [H _].
  exact H.
Defined.

(** Tickets appear five minutes after the last message: nothing is sent. *)
Lemma change_within_cooldown_is_silent_witness :
  sent_texts
    (trace (snd (iteration lower_ascii (calm (lit "Buy ticket") (minutes 5))
                   (mkState (Some NOT_AVAILABLE) 0 (Present NOT_AVAILABLE)
                            (Present 0) [])))) = [].
Proof.
  assert (Hc : check_ticket_availability lower_ascii
                 (calm (lit "Buy ticket") (minutes 5))
                 (mkState (Some NOT_AVAILABLE) 0 (Present NOT_AVAILABLE)
                          (Present 0) []) =
               (Ret AVAILABLE,
                snd (emit HttpGet
                       (mkState (Some NOT_AVAILABLE) 0
                                (Present NOT_AVAILABLE) (Present 0) []))))
    by (vm_compute; reflexivity).
  assert (Ht : now_check (calm (lit "Buy ticket") (minutes 5)) - 0
               <= cooldown) by (vm_compute; discriminate).
  destruct (change_within_cooldown_is_silent lower_ascii _ _ _ AVAILABLE 0
              Hc eq_refl eq_refl Ht) as [H _].
  exact H.
Defined.

(** The first turn ever, on a page without keywords. *)
Lemma first_turn_of_first_run_witness :
  status_file (snd (main lower_ascii [calm [] (minutes 1)]
                      (boot Absent Absent))) = Present NOT_AVAILABLE.
Proof.
  assert (Hc : check_ticket_availability lower_ascii (calm [] (minutes 1))
                 (boot Absent Absent) =
               (Ret NOT_AVAILABLE, snd (emit HttpGet (boot Absent Absent))))
    by (vm_compute; reflexivity).
  destruct (first_turn_of_first_run lower_ascii (calm [] (minutes 1)) _
              NOT_AVAILABLE Hc eq_refl eq_refl eq_refl) as [_ [_ [H _]]].
  exact H.
Defined.

(** "event tickets" inside a longer word still counts. *)
Lemma ascii_page_matches_keyword_anywhere_witness :
  fst (check_ticket_availability lower_ascii
         (calm (lit "preEvent Tickets") 0) (boot Absent Absent)) =
  Ret AVAILABLE.
Proof.
  assert (Ha : is_ascii (lit "preEvent Tickets"))
    by (apply is_ascii_forallb; reflexivity).
  apply (ascii_page_matches_keyword_anywhere lower_ascii lower_ascii_on_ascii
           (calm (lit "preEvent Tickets") 0) (boot Absent Absent) 200
           (lit "preEvent Tickets") eq_refl (or_introl eq_refl) Ha).
  exists (lit "pre"), (lit "Event Ticket"), (lit "s"), (lit "EVENT TICKET").
  split; [reflexivity|]. split; [|reflexivity].
  right. right. left. reflexivity.
Defined.

(** A time with a UTC offset, 31 minutes old, and a call without [force]:
    more than 30 minutes have passed and still nothing is sent. *)
Lemma aware_time_blocks_unforced_calls :
  ~ (forall (e : env) (message text : pystr) (force : bool) (s : state),
       utf8_encode (notification_text message) = Some text ->
       let s' := snd (send_telegram_notification e message force s) in
       sent_texts (trace s') = sent_texts (trace s) ++ [text] <->
       force = true \/
       (forall d, notification_file s <> Present d) \/
       (exists d, notification_file s = Present d /\
                  cooldown < now_check e - instant d)).
Proof.
  intros H.
  specialize (H (calm [] (minutes 31)) ERROR (lit " Status: Error") false
                (boot Absent (Present (Aware 0))) eq_refl).
  cbv zeta in H. destruct H as [_ H].
  assert (Hs : sent_texts
                 (trace (snd (send_telegram_notification
                                (calm [] (minutes 31)) ERROR false
                                (boot Absent (Present (Aware 0)))))) =
               sent_texts (trace (boot Absent (Present (Aware 0)))) ++
               [lit " Status: Error"]).
  { apply H. right. right. exists (Aware 0).
    split; [reflexivity | vm_compute; reflexivity]. }
  vm_compute in Hs. discriminate.
Qed.

(** The write of the first status fails after the file was opened. *)
Lemma failed_status_write_empties_the_file_witness :
  status_file
    (snd (iteration lower_ascii
            (mkEnv (GetRaises RequestTimeout) 0 Delivered 0 Written
                   WriteRaisesIOError Slept Slept)
            (boot (Present NOT_AVAILABLE) Absent))) = Present [].
Proof.
  assert (Hc : check_ticket_availability lower_ascii
                 (mkEnv (GetRaises RequestTimeout) 0 Delivered 0 Written
                        WriteRaisesIOError Slept Slept)
                 (boot (Present NOT_AVAILABLE) Absent) =
               (Ret ERROR,
                snd (emit HttpGet (boot (Present NOT_AVAILABLE) Absent))))
    by (vm_compute; reflexivity).
  destruct (failed_status_write_empties_the_file lower_ascii _ _ _ ERROR
              Hc eq_refl eq_refl) as [H _].
  exact H.
Defined.
